(** * Planning Poker: the estimation round and the session analytics

    A shallow embedding of [planning_poker_supabase.py]: the store access
    methods of [PlanningPokerApp] ([get_participants_df], [get_stories_df],
    [get_estimates_df], [add_participant], [add_story], [save_estimates]),
    the round evaluation [analyze_estimates], the estimation tab
    [render_estimation_tab] that calls it, the forms of the participants
    and stories tabs, and the summaries computed by [render_analytics_tab]
    and [render_reports_tab].

    Modelling conventions.
    - Python numbers: an [int] is a [Z]; a finite [float] is the rational it
      denotes ([Q], compared with [Qeq]).  The conversion of an int and
      the arithmetic of a mean round as doubles do, to the nearest double
      ([round_double]); the order of the additions of a mean is the
      runtime's.  The median of two middle values and the sum of the
      final estimates are taken exactly, as Python has them on values like
      those of the cards, where such a sum does not round.  Numbers beyond
      the range of doubles, [inf] and [nan] inputs are outside the model.
      A [nan] *result* (the mean of an empty series) is [None].
    - A [dict] is an association list in insertion order.
    - A [DataFrame] is the list of its rows.  Every frame the program builds
      is either [pd.DataFrame(result.data)] with [result.data] non-empty, or
      the bare [pd.DataFrame()], which has no columns: selecting a column of
      the empty list raises [KeyError].
    - Effects: a state-and-exception monad [M] over the [world] (the three
      tables, the pending store faults, the clock, the widgets drawn so
      far). *)

From Stdlib Require Import ZArith QArith Qround Qabs String Ascii List Bool Lia.
From Stdlib Require Import DecimalString.
From stdpp Require Import base option list strings gmap sorting.
Import ListNotations.

Local Open Scope string_scope.
Local Open Scope list_scope.

(** ** Double precision

    Python's floats are IEEE 754 doubles: a sum or a quotient of two floats
    is the double nearest to the exact result.  *)

(** [x * 2^e]. *)
Definition scale (x : Q) (e : Z) : Q :=
  if (0 <=? e)%Z then (x * inject_Z (2 ^ e))%Q else (x / inject_Z (2 ^ (- e)))%Q.

(** The integer nearest to [x], the even one of the two when [x] lies half
    way between them. *)
Definition round_half_even (x : Q) : Z :=
  let f := Qfloor x in
  match (x - inject_Z f ?= 1 # 2)%Q with
  | Lt => f
  | Gt => (f + 1)%Z
  | Eq => if Z.even f then f else (f + 1)%Z
  end.

(** For [x > 0], the [e] with [2^e <= x < 2^(e+1)]. *)
Definition ilog2 (x : Q) : Z :=
  let l := (Z.log2 (Qnum x) - Z.log2 (Zpos (Qden x)))%Z in
  if Qle_bool (scale 1 l) x then l else (l - 1)%Z.

(** The double nearest to [x]: 53 significant bits, ties to the even one.
    The bounds of the exponent are left out (no overflow, no subnormal
    numbers). *)
Definition round_double (x : Q) : Q :=
  let x := Qred x in
  if Qeq_bool x 0 then 0%Q
  else
    let e := (ilog2 (Qabs x) - 52)%Z in
    Qred (scale (inject_Z (round_half_even (scale x (- e)))) e).

(** A float sum of [values], the additions made in any order and any
    grouping: the sum of nothing, or one value, or the rounded sum of float
    sums of two parts of the values.  Adding the values one after the
    other, or by blocks as numpy does on an array, are such sums. *)
Inductive float_sum_of : list Q -> Q -> Prop :=
  | float_sum_of_nil : float_sum_of [] 0%Q
  | float_sum_of_one (x : Q) : float_sum_of [x] x
  | float_sum_of_parts (values part1 part2 : list Q) (a b : Q) :
      values ≡ₚ part1 ++ part2 ->
      float_sum_of part1 a ->
      float_sum_of part2 b ->
      float_sum_of values (round_double (a + b)).

(** ** The Python and pandas primitives the program calls *)

(** The conversions between text and numbers, and the sum of an array of
    floats, come from the Python runtime, from numpy and from pandas, not
    from the repository; the development is parametric in them. *)
Class PyRuntime := {
  (** [float(s)] on a [str]: [None] when it raises [ValueError]. *)
  float_of_str : string -> option Q;
  (** [str(x)] on a [float]. *)
  str_of_float : Q -> string;
  (** [pd.to_numeric(_, errors='coerce')] on one text cell: [None] where
      the cell is coerced to [NaN]. *)
  to_numeric : string -> option Q;
  (** The sum of the floats of an array, as [np.mean] and [Series.mean()]
      take it: rounded additions of the values, in an order and a grouping
      that are the library's own. *)
  float_sum : list Q -> Q;
  float_sum_order : forall values, float_sum_of values (float_sum values)
}.

(** A raw estimate, the value of one entry of the [estimates] dict. *)
Inductive raw :=
| RInt (z : Z)
| RFloat (x : Q)
| RStr (s : string).

(** [self.fibonacci_cards] and [self.special_cards]. *)
Definition fibonacci_cards : list raw :=
  [RInt 0; RFloat (1 # 2); RInt 1; RInt 2; RInt 3; RInt 5; RInt 8; RInt 13;
   RInt 21; RInt 34; RInt 55; RInt 89].

Definition special_cards : list raw := [RStr "?"; RStr "∞"].

Definition all_cards : list raw := fibonacci_cards ++ special_cards.

(** [estimate in ['?', '∞']]: a number is never equal to a [str]. *)
Definition is_special (estimate : raw) : option string :=
  match estimate with
  | RStr s => if String.eqb s "?" || String.eqb s "∞" then Some s else None
  | _ => None
  end.

Section Runtime.
Context `{PyRuntime}.

(** [float(estimate)]: [None] when the call raises [ValueError].  An [int]
    becomes the double nearest to it, which is the int itself up to [2^53]
    in size.  An int beyond the range of doubles, for which Python raises
    [OverflowError], is outside the model (no card of the deck and no
    select box yields one). *)
Definition py_float (estimate : raw) : option Q :=
  match estimate with
  | RInt z => Some (round_double (inject_Z z))
  | RFloat x => Some x
  | RStr s => float_of_str s
  end.

(** [str(estimate)]. *)
Definition py_str (estimate : raw) : string :=
  match estimate with
  | RInt z => NilZero.string_of_int (Z.to_int z)
  | RFloat x => str_of_float x
  | RStr s => s
  end.

(** The first loop of [analyze_estimates] (lines 422-432): the entries are
    split into [numeric_estimates] and [special_estimates]; an entry that
    [float] rejects is passed over ([except: pass]). *)
Fixpoint split_estimates (estimates : list (string * raw))
  : list (string * Q) * list (string * string) :=
  match estimates with
  | [] => ([], [])
  | (participant, estimate) :: rest =>
      let (numeric_estimates, special_estimates) := split_estimates rest in
      match is_special estimate with
      | Some tok => (numeric_estimates, (participant, tok) :: special_estimates)
      | None =>
          match py_float estimate with
          | Some x => ((participant, x) :: numeric_estimates, special_estimates)
          | None => (numeric_estimates, special_estimates)
          end
      end
  end.

Definition numeric_estimates (estimates : list (string * raw)) : list (string * Q) :=
  fst (split_estimates estimates).

Definition special_estimates (estimates : list (string * raw)) : list (string * string) :=
  snd (split_estimates estimates).

End Runtime.

(** ** Python's [min], [max], [set] and numpy's [mean] on a list of floats *)

(** [min(values)]: the first smallest element; [None] stands for the
    [ValueError] on an empty list. *)
Definition py_min (values : list Q) : option Q :=
  match values with
  | [] => None
  | v :: vs => Some (fold_left (fun m x => if Qle_bool m x then m else x) vs v)
  end.

(** [max(values)]: the first largest element. *)
Definition py_max (values : list Q) : option Q :=
  match values with
  | [] => None
  | v :: vs => Some (fold_left (fun m x => if Qle_bool x m then m else x) vs v)
  end.

Definition Qsum (values : list Q) : Q := fold_right Qplus 0%Q values.

Section Mean.
Context `{PyRuntime}.

(** [np.mean(values)] and [Series.mean()]: the float sum divided by the
    number of values, the quotient rounded as the sums are; [None] is
    [nan], the mean of nothing. *)
Definition mean (values : list Q) : option Q :=
  match values with
  | [] => None
  | _ => Some (round_double (float_sum values / inject_Z (Z.of_nat (length values))))
  end.

End Mean.

(** [set(values)]: one representative of every class of equal floats. *)
Fixpoint py_set (values : list Q) : list Q :=
  match values with
  | [] => []
  | v :: vs => v :: List.filter (fun x => negb (Qeq_bool v x)) (py_set vs)
  end.

(** ** The record store *)

(** Rows of the tables [participants], [user_stories] and [estimates], with
    the columns the program writes. *)
Record participant := Participant {
  p_id : Z;
  p_session_id : Z;
  p_name : string;
  p_role : string;
  p_email : option string;
  p_joined_at : Z
}.

Record story := Story {
  s_id : Z;
  s_session_id : Z;
  s_story_id : string;
  s_title : string;
  s_description : string;
  s_acceptance_criteria : string;
  s_priority : string;
  s_status : string;
  s_created_at : Z;
  s_final_estimate : option Q;
  s_last_estimated_at : option Z
}.

Record estimate := Estimate {
  e_session_id : Z;
  e_story_id : Z;
  e_participant_id : Z;
  e_estimate : string;
  e_estimated_at : Z
}.

(** ** What the program draws *)

Inductive exn :=
| StoreError              (* a request to the store failed *)
| KeyError (column : string)
| ValueError
| IndexError.

(** The format of a replacement field: [{x}] or [{x:.1f}]. *)
Inductive fmt := Plain | OneDecimal.

(** A piece of an f-string or a cell of a displayed table. *)
Inductive piece :=
| Lit (s : string)
| Str (s : string)
| Card (c : raw)
| Int (n : Z)
| Float (x : option Q) (f : fmt)      (* [None] is [nan] *)
| Exn (e : exn).

(** The streamlit calls that put something on the screen, in the order they
    are made; the layout calls ([st.columns], [with col:]) draw nothing of
    their own and are left out.  [st.rerun()] ends the run of the script;
    it is the last call on its path and is recorded like a widget. *)
Inductive widget :=
| st_subheader (body : list piece)
| st_markdown (body : list piece)
| st_dataframe (rows : list (list piece))
| st_write (body : list piece)
| st_metric (label : string) (value : piece)
| st_plotly_chart (title : string) (xs ys : list piece)
| st_success (body : list piece)
| st_warning (body : list piece)
| st_info (body : list piece)
| st_error (body : list piece)
| st_rerun.

(** ** The world and the monad *)

Record world := World {
  current_session_id : Z;             (* [st.session_state.current_session_id] *)
  tbl_participants : list participant;
  tbl_user_stories : list story;
  tbl_estimates : list estimate;
  faults : list bool;                 (* for each coming request: does it fail? *)
  now : Z;                            (* the clock *)
  screen : list widget                (* the widgets drawn, oldest first *)
}.

Definition set_estimates (rows : list estimate) (w : world) : world :=
  World (current_session_id w) (tbl_participants w) (tbl_user_stories w) rows
        (faults w) (now w) (screen w).

Definition set_user_stories (rows : list story) (w : world) : world :=
  World (current_session_id w) (tbl_participants w) rows (tbl_estimates w)
        (faults w) (now w) (screen w).

Definition set_faults (fs : list bool) (w : world) : world :=
  World (current_session_id w) (tbl_participants w) (tbl_user_stories w)
        (tbl_estimates w) fs (now w) (screen w).

Definition set_now (t : Z) (w : world) : world :=
  World (current_session_id w) (tbl_participants w) (tbl_user_stories w)
        (tbl_estimates w) (faults w) t (screen w).

Definition set_screen (ws : list widget) (w : world) : world :=
  World (current_session_id w) (tbl_participants w) (tbl_user_stories w)
        (tbl_estimates w) (faults w) (now w) ws.

Inductive outcome (A : Type) :=
| Ok (a : A)
| Raised (e : exn).
Arguments Ok {A} a.
Arguments Raised {A} e.

Definition M (A : Type) : Type := world -> outcome A * world.

#[export] Instance M_ret : MRet M := fun A a w => (Ok a, w).

#[export] Instance M_bind : MBind M := fun A B f c w =>
  match c w with
  | (Ok a, w') => f a w'
  | (Raised e, w') => (Raised e, w')
  end.

Definition raise {A} (e : exn) : M A := fun w => (Raised e, w).

(** [try: c  except ...: h]; what [c] did before it raised stays done.
    Every exception of the model is an [Exception], so [except Exception]
    and the bare [except] catch the same. *)
Definition try_except {A} (c : M A) (h : exn -> M A) : M A := fun w =>
  match c w with
  | (Ok a, w') => (Ok a, w')
  | (Raised e, w') => h e w'
  end.

Definition st (x : widget) : M unit := fun w => (Ok tt, set_screen (screen w ++ [x]) w).

Definition session_state : M Z := fun w => (Ok (current_session_id w), w).

(** [datetime.now()]: time passes between two readings. *)
Definition datetime_now : M Z := fun w => (Ok (now w), set_now (now w + 1) w).

(** [.execute()]: the request fails if the store says so, and is carried
    out otherwise. *)
Definition execute {A} (request : world -> A * world) : M A := fun w =>
  match faults w with
  | true :: fs => (Raised StoreError, set_faults fs w)
  | false :: fs => let (a, w') := request (set_faults fs w) in (Ok a, w')
  | [] => let (a, w') := request w in (Ok a, w')
  end.

Definition of_option {A} (e : exn) (o : option A) : M A :=
  match o with
  | Some a => mret a
  | None => raise e
  end.

(** [for x in l: acc = body(acc, x)]. *)
Fixpoint for_each {A B} (l : list A) (acc : B) (body : B -> A -> M B) : M B :=
  match l with
  | [] => mret acc
  | x :: rest => acc' ← body acc x; for_each rest acc' body
  end.

(** [df[name]]: the column [name] of a frame; the bare [pd.DataFrame()] has
    none. *)
Definition column {R A} (name : string) (get : R -> A) (df : list R) : M (list A) :=
  match df with
  | [] => raise (KeyError name)
  | _ => mret (map get df)
  end.

(** [df[mask]]: the rows where the mask holds. *)
Definition rows_where {R} (mask : list bool) (df : list R) : list R :=
  map snd (List.filter fst (combine mask df)).

(** ** The program *)

(** The requests sent to the store. *)
Definition select_participants (session_id : Z) (w : world) : list participant * world :=
  (List.filter (fun p => Z.eqb (p_session_id p) session_id) (tbl_participants w), w).

Definition insert_estimates (rows : list estimate) (w : world) : list estimate * world :=
  (rows, set_estimates (tbl_estimates w ++ rows) w).

(** [update({'status': 'estimated', 'final_estimate': v, 'last_estimated_at': t})
    .eq('id', id)]. *)
Definition update_story (id : Z) (v : Q) (t : Z) (w : world) : unit * world :=
  (tt, set_user_stories
         (map (fun s => if Z.eqb (s_id s) id
                        then Story (s_id s) (s_session_id s) (s_story_id s) (s_title s)
                               (s_description s) (s_acceptance_criteria s) (s_priority s)
                               "estimated" (s_created_at s) (Some v) (Some t)
                        else s)
              (tbl_user_stories w)) w).

(** [PlanningPokerApp.get_participants_df] (lines 70-76). *)
Definition get_participants_df (session_id : Z) : M (list participant) :=
  try_except
    (result_data ← execute (select_participants session_id);
     mret result_data)
    (fun _ => mret []).

Section Program.
Context `{PyRuntime}.

(** [PlanningPokerApp.save_estimates] (lines 123-148). *)
Definition save_estimates (story_db_id : Z) (estimates_dict : list (string * raw)) : M bool :=
  try_except
    (session_id ← session_state;
     participants_df ← get_participants_df session_id;
     estimates_data ← for_each estimates_dict []
       (fun estimates_data '(participant_name, estimate) =>
          names ← column "name" p_name participants_df;
          let participant_row :=
            rows_where (map (String.eqb participant_name) names) participants_df in
          match participant_row with
          | [] => mret estimates_data
          | first :: _ =>
              let participant_id := p_id first in
              session_id ← session_state;
              estimated_at ← datetime_now;
              mret (estimates_data ++
                      [Estimate session_id story_db_id participant_id
                                (py_str estimate) estimated_at])
          end);
     match estimates_data with
     | [] => mret false
     | _ :: _ =>
         result_data ← execute (insert_estimates estimates_data);
         mret (negb (Nat.eqb (length result_data) 0))
     end)
    (fun e =>
       st (st_error [Lit "Error guardando estimaciones: "; Exn e]);;
       mret false).

(** The branch [analyze_estimates] ends in.  The source returns nothing
    and tells the verdict on the screen ([st.success] "¡CONSENSO!",
    [st.warning] "Sin consenso", or neither when fewer than two numeric
    estimates were given); the model returns it as well. *)
Inductive round :=
| Consensus (value : Q)
| NoConsensus (lo hi : Q)
| Inconclusive.

Definition meaning (tok : string) : string :=
  if String.eqb tok "?" then "Necesita más información" else "Demasiado complejo".

(** [analyze_estimates] (lines 420-486). *)
Definition analyze_estimates (story_row : story) (estimates : list (string * raw)) : M round :=
  let numeric_estimates := numeric_estimates estimates in
  let special_estimates := special_estimates estimates in
  st (st_markdown [Lit "### 📊 Resultados de Estimación"]);;
  st (st_dataframe (map (fun '(p, e) => [Str p; Card e]) estimates));;
  match special_estimates with
  | [] => mret tt
  | _ :: _ =>
      st (st_warning [Lit "⚠️ Estimaciones especiales:"]);;
      for_each special_estimates tt
        (fun _ '(participant, tok) =>
           st (st_write [Lit "- **"; Str participant; Lit "**: "; Str tok;
                         Lit " ("; Str (meaning tok); Lit ")"]))
  end;;
  if Nat.ltb 1 (length numeric_estimates) then
    let values := map snd numeric_estimates in
    lo ← of_option ValueError (py_min values);
    st (st_metric "Mínimo" (Float (Some lo) Plain));;
    hi ← of_option ValueError (py_max values);
    st (st_metric "Máximo" (Float (Some hi) Plain));;
    st (st_metric "Promedio" (Float (mean values) OneDecimal));;
    st (st_plotly_chart "Estimaciones por Participante"
          (map (fun est => Str (fst est)) numeric_estimates)
          (map (fun est => Float (Some (snd est)) Plain) numeric_estimates));;
    let unique_values := py_set values in
    if Nat.eqb (length unique_values) 1 then
      value ← of_option IndexError (head values);
      st (st_success [Lit "🎉 ¡CONSENSO! Todos estimaron: "; Float (Some value) Plain]);;
      saved ← save_estimates (s_id story_row) estimates;
      (if saved : bool then
         try_except
           (value ← of_option IndexError (head values);
            last_estimated_at ← datetime_now;
            execute (update_story (s_id story_row) value last_estimated_at);;
            st (st_success [Lit "✅ Estimación guardada!"]);;
            st st_rerun)
           (fun e => st (st_error [Lit "Error actualizando historia: "; Exn e]))
       else mret tt);;
      mret (Consensus value)
    else
      lo ← of_option ValueError (py_min values);
      hi ← of_option ValueError (py_max values);
      st (st_warning [Lit "🔄 Sin consenso. Rango: "; Float (Some lo) Plain;
                      Lit " - "; Float (Some hi) Plain]);;
      st (st_info [Lit "💬 Discutan las diferencias y vuelvan a estimar"]);;
      mret (NoConsensus lo hi)
  else mret Inconclusive.

End Program.

(** ** Analytics *)

(** A row of the frame built by [get_estimates_df]. *)
Record estimate_info := EstimateInfo {
  i_story_id : string;
  i_story_title : string;
  i_participant_name : string;
  i_participant_role : string;
  i_estimate : string;
  i_estimated_at : Z
}.

Definition select_stories (session_id : Z) (w : world) : list story * world :=
  (List.filter (fun s => Z.eqb (s_session_id s) session_id) (tbl_user_stories w), w).

Definition select_estimates (session_id : Z) (w : world) : list estimate * world :=
  (List.filter (fun e => Z.eqb (e_session_id e) session_id) (tbl_estimates w), w).

Definition select_participant (id : Z) (w : world) : list participant * world :=
  (List.filter (fun p => Z.eqb (p_id p) id) (tbl_participants w), w).

Definition select_story (id : Z) (w : world) : list story * world :=
  (List.filter (fun s => Z.eqb (s_id s) id) (tbl_user_stories w), w).

(** [PlanningPokerApp.get_stories_df] (lines 78-84). *)
Definition get_stories_df (session_id : Z) : M (list story) :=
  try_except
    (result_data ← execute (select_stories session_id);
     mret result_data)
    (fun _ => mret []).

(** [PlanningPokerApp.get_estimates_df] (lines 150-181). *)
Definition get_estimates_df (session_id : Z) : M (list estimate_info) :=
  try_except
    (estimates_result ← execute (select_estimates session_id);
     match estimates_result with
     | [] => mret []
     | _ :: _ =>
         for_each estimates_result []
           (fun estimates_data estimate =>
              participant_result ← execute (select_participant (e_participant_id estimate));
              let participant_name :=
                match participant_result with p :: _ => p_name p | [] => "Desconocido" end in
              let participant_role :=
                match participant_result with p :: _ => p_role p | [] => "N/A" end in
              story_result ← execute (select_story (e_story_id estimate));
              let story_id :=
                match story_result with s :: _ => s_story_id s | [] => "N/A" end in
              let story_title :=
                match story_result with s :: _ => s_title s | [] => "N/A" end in
              mret (estimates_data ++
                      [EstimateInfo story_id story_title participant_name participant_role
                                    (e_estimate estimate) (e_estimated_at estimate)]))
     end)
    (fun e =>
       st (st_error [Lit "Error obteniendo estimaciones: "; Exn e]);;
       mret []).

(** [Series.nunique()] on a column of text. *)
Definition nunique (col : list string) : Z :=
  Z.of_nat (size (list_to_set col : gset string)).

Definition sort_floats (values : list Q) : list Q :=
  merge_sort (fun a b => Is_true (Qle_bool a b)) values.

(** [Series.median()]: the middle of the sorted values, the mean of the two
    middle ones when their number is even, [nan] when there is none. *)
Definition median (values : list Q) : option Q :=
  let sorted := sort_floats values in
  let n := length sorted in
  if Nat.odd n then sorted !! (n / 2)%nat
  else match sorted !! (n / 2 - 1)%nat, sorted !! (n / 2)%nat with
       | Some a, Some b => Some ((a + b) / 2)%Q
       | _, _ => None
       end.

(** [estimated_stories['final_estimate'].sum()]: missing values count for
    nothing. *)
Definition sum_final_estimate (stories : list story) : Q :=
  Qsum (omap s_final_estimate stories).

Section Analytics.
Context `{PyRuntime}.

(** [pd.to_numeric(col, errors='coerce').dropna()]. *)
Definition numeric_subset (col : list string) : list Q := omap to_numeric col.

(** [estimates_df.groupby('participant_name')['estimate'].apply(lambda x:
    pd.to_numeric(x, errors='coerce').mean())], then [dropna()]: the groups
    come in the order of their keys, and [mean] skips the cells that are
    not numbers. *)
Definition participant_stats (estimates_df : list estimate_info) : list (string * Q) :=
  let keys :=
    merge_sort (fun a b => Is_true (String.leb a b))
               (remove_dups (map i_participant_name estimates_df)) in
  omap (fun name =>
          let group :=
            List.filter (fun r => String.eqb (i_participant_name r) name) estimates_df in
          avg ← mean (numeric_subset (map i_estimate group));
          Some (name, avg))
       keys.

(** [render_analytics_tab] (lines 488-551). *)
Definition render_analytics_tab : M unit :=
  st (st_subheader [Lit "📊 Analytics de la Sesión"]);;
  session_id ← session_state;
  estimates_df ← get_estimates_df session_id;
  match estimates_df with
  | _ :: _ =>
      story_ids ← column "story_id" i_story_id estimates_df;
      let unique_stories := nunique story_ids in
      st (st_metric "Historias Estimadas" (Int unique_stories));;
      let total_estimates := Z.of_nat (length estimates_df) in
      st (st_metric "Total Estimaciones" (Int total_estimates));;
      estimate_col ← column "estimate" i_estimate estimates_df;
      let numeric_estimates := numeric_subset estimate_col in
      let avg_estimate :=
        match numeric_estimates with _ :: _ => mean numeric_estimates | [] => Some 0%Q end in
      st (st_metric "Promedio" (Float avg_estimate OneDecimal));;
      names ← column "participant_name" i_participant_name estimates_df;
      let participants_estimating := nunique names in
      st (st_metric "Participantes Activos" (Int participants_estimating));;
      match numeric_estimates with
      | _ :: _ =>
          st (st_plotly_chart "Distribución de Estimaciones"
                (map (fun x => Float (Some x) Plain) numeric_estimates) [])
      | [] => mret tt
      end;;
      let participant_stats := participant_stats estimates_df in
      match participant_stats with
      | _ :: _ =>
          st (st_plotly_chart "Promedio por Participante"
                (map (fun r => Str (fst r)) participant_stats)
                (map (fun r => Float (Some (snd r)) Plain) participant_stats))
      | [] => mret tt
      end;;
      st (st_markdown [Lit "### 📋 Detalle de Estimaciones"]);;
      st (st_dataframe
            (map (fun r => [Str (i_story_id r); Str (i_story_title r);
                            Str (i_participant_name r); Str (i_participant_role r);
                            Str (i_estimate r); Int (i_estimated_at r)])
                 estimates_df))
  | [] => st (st_info [Lit "🎯 No hay estimaciones aún."])
  end.

(** The block [with col1] of [render_reports_tab] (lines 566-577): the
    summary of the stories. *)
Definition reports_stories (stories_df : list story) : M unit :=
  match stories_df with
  | _ :: _ =>
      status ← column "status" s_status stories_df;
      let estimated_stories :=
        rows_where (map (fun x => String.eqb x "estimated") status) stories_df in
      let total_points :=
        match estimated_stories with
        | _ :: _ => sum_final_estimate estimated_stories
        | [] => 0%Q
        end in
      st (st_markdown
            [Lit "**📋 Historias:** - Total: "; Int (Z.of_nat (length stories_df));
             Lit " - Estimadas: "; Int (Z.of_nat (length estimated_stories));
             Lit " - Pendientes: ";
             Int (Z.of_nat (length stories_df) - Z.of_nat (length estimated_stories));
             Lit " - Story Points: "; Float (Some total_points) Plain])
  | [] => mret tt
  end.

(** The block [with col2] of [render_reports_tab] (lines 579-589): the
    summary of the estimates. *)
Definition reports_estimates (participants_df : list participant)
    (estimates_df : list estimate_info) : M unit :=
  match estimates_df with
  | _ :: _ =>
      estimate_col ← column "estimate" i_estimate estimates_df;
      let numeric_estimates := numeric_subset estimate_col in
      participants ←
        match participants_df with
        | _ :: _ => names ← column "name" p_name participants_df; mret (nunique names)
        | [] => mret 0%Z
        end;
      st (st_markdown
            [Lit "**🎯 Estimaciones:** - Total: "; Int (Z.of_nat (length estimates_df));
             Lit " - Promedio: "; Float (mean numeric_estimates) OneDecimal;
             Lit " - Mediana: "; Float (median numeric_estimates) OneDecimal;
             Lit " - Participantes: "; Int participants])
  | [] => mret tt
  end.

(** [render_reports_tab] up to the summary (lines 553-589); the export
    buttons that follow compute nothing. *)
Definition render_reports_tab : M unit :=
  st (st_subheader [Lit "📈 Reportes y Exportación"]);;
  session_id ← session_state;
  stories_df ← get_stories_df session_id;
  participants_df ← get_participants_df session_id;
  estimates_df ← get_estimates_df session_id;
  st (st_markdown [Lit "### 📊 Resumen Ejecutivo"]);;
  reports_stories stories_df;;
  reports_estimates participants_df estimates_df.

End Analytics.

(** ** A runtime for the examples

    Plain decimal notation: an optional sign, digits, an optional point and
    digits.  On the short numerals of the examples ('5', '8', '0.5', '13')
    the functions below give what [float], [str] and [pd.to_numeric] give.
    They are not Python's in general: they read no exponent, no blanks
    around the numeral, no [inf] or [nan], they do not round a numeral that
    is not a double, and they print every digit.  The sum of the examples
    adds the values one after the other.  The runtime is used by the
    examples only; the theorems hold for every runtime. *)
Module Decimal.

Definition digit (c : ascii) : option Z :=
  let n := nat_of_ascii c in
  if Nat.leb 48 n && Nat.leb n 57 then Some (Z.of_nat (n - 48)) else None.

(** The value and the number of digits of a run of digits. *)
Fixpoint digits (acc : Z) (count : nat) (s : string) : option (Z * nat) :=
  match s with
  | EmptyString => Some (acc, count)
  | String c rest =>
      match digit c with
      | Some d => digits (10 * acc + d) (S count) rest
      | None => None
      end
  end.

Fixpoint split_point (s : string) : string * option string :=
  match s with
  | EmptyString => (EmptyString, None)
  | String c rest =>
      if Ascii.eqb c "."%char then (EmptyString, Some rest)
      else let (a, b) := split_point rest in (String c a, b)
  end.

Definition unsigned (s : string) : option Q :=
  let (int_part, frac) := split_point s in
  let frac_part := match frac with Some f => f | None => EmptyString end in
  match digits 0 0 int_part, digits 0 0 frac_part with
  | Some (i, ni), Some (f, nf) =>
      if Nat.eqb (ni + nf) 0 then None
      else Some (Qred (inject_Z (i * 10 ^ Z.of_nat nf + f) / inject_Z (10 ^ Z.of_nat nf)))
  | _, _ => None
  end.

Definition parse (s : string) : option Q :=
  match s with
  | String "-"%char rest => option_map Qopp (unsigned rest)
  | String "+"%char rest => unsigned rest
  | _ => unsigned s
  end.

(** The digits after the point, by long division. *)
Fixpoint fraction (fuel : nat) (num den : Z) : string :=
  match fuel with
  | O => EmptyString
  | S fuel' =>
      let d := (10 * num / den)%Z in
      let r := (10 * num mod den)%Z in
      String (ascii_of_nat (48 + Z.to_nat d))
             (if Z.eqb r 0 then EmptyString else fraction fuel' r den)
  end.

Definition print (x : Q) : string :=
  let n := Z.abs (Qnum x) in
  let d := Z.pos (Qden x) in
  ((if Z.ltb (Qnum x) 0 then "-" else "") ++
   NilZero.string_of_int (Z.to_int (n / d)) ++ "." ++ fraction 16 (n mod d) d)%string.

End Decimal.

(** The values added one after the other. *)
Definition sum_in_turn (values : list Q) : Q :=
  fold_left (fun acc x => round_double (acc + x)) values 0%Q.

#[export] Instance decimal_runtime : PyRuntime.
Proof.
  refine {| float_of_str := Decimal.parse;
            str_of_float := Decimal.print;
            to_numeric := Decimal.parse;
            float_sum := sum_in_turn;
            float_sum_order := _ |}.
  intros values. unfold sum_in_turn.
  assert (forall added acc,
            float_sum_of added acc ->
            float_sum_of (added ++ values)
              (fold_left (fun acc x => round_double (acc + x)) values acc)) as Hloop.
  { induction values as [|x l IH]; intros added acc Hacc; simpl.
    - by rewrite app_nil_r.
    - rewrite (cons_middle x added l), app_assoc. apply IH.
      apply (float_sum_of_parts _ added [x]); [done | done | constructor]. }
  apply (Hloop [] 0%Q). constructor.
Defined.


(** ** Notions used by the statements *)

(** The world after some more widgets were drawn. *)
Definition draw (ws : list widget) (w : world) : world :=
  set_screen (screen w ++ ws) w.

(** What [analyze_estimates] draws before it looks at the numbers. *)
Definition special_line (entry : string * string) : widget :=
  st_write [Lit "- **"; Str (fst entry); Lit "**: "; Str (snd entry);
            Lit " ("; Str (meaning (snd entry)); Lit ")"].

Definition prelude (estimates : list (string * raw)) (specials : list (string * string))
  : list widget :=
  [st_markdown [Lit "### 📊 Resultados de Estimación"];
   st_dataframe (map (fun '(p, e) => [Str p; Card e]) estimates)] ++
  match specials with
  | [] => []
  | _ :: _ => st_warning [Lit "⚠️ Estimaciones especiales:"] :: map special_line specials
  end.

(** All the numeric estimates are the same number. *)
Definition all_agree (values : list Q) : Prop :=
  forall x y, In x values -> In y values -> (x == y)%Q.

(** Python's [==] between two cards. *)
Definition card_eqb (a b : raw) : bool :=
  match a, b with
  | RStr s, RStr t => String.eqb s t
  | RStr _, _ | _, RStr _ => false
  | RInt x, RInt y => Z.eqb x y
  | RInt x, RFloat y => Qeq_bool (inject_Z x) y
  | RFloat x, RInt y => Qeq_bool x (inject_Z y)
  | RFloat x, RFloat y => Qeq_bool x y
  end.

(** Membership in the canonical deck, [raw in all_cards]. *)
Definition in_deck (r : raw) : bool := existsb (card_eqb r) all_cards.


(** The text of [{x:.1f}]: one digit after the point, correctly rounded. *)
Definition one_decimal (x : Q) : string :=
  let n := round_half_even (Qabs x * 10) in
  ((if Qle_bool 0 x then "" else "-") ++
   NilZero.string_of_int (Z.to_int (n / 10)) ++ "." ++
   NilZero.string_of_int (Z.to_int (n mod 10)))%string.

(** The participants of the current session, in the order of the table. *)
Definition session_participants (w : world) : list participant :=
  List.filter (fun p => Z.eqb (p_session_id p) (current_session_id w)) (tbl_participants w).

(** The first participant of a frame that bears a name. *)
Definition find_participant (ps : list participant) (name : string) : option participant :=
  head (List.filter (fun p => String.eqb name (p_name p)) ps).

Section Notions.
Context `{PyRuntime}.

(** What is drawn once there are two numeric estimates or more. *)
Definition metrics (nums : list (string * Q)) (lo hi : Q) : list widget :=
  [st_metric "Mínimo" (Float (Some lo) Plain);
   st_metric "Máximo" (Float (Some hi) Plain);
   st_metric "Promedio" (Float (mean (map snd nums)) OneDecimal);
   st_plotly_chart "Estimaciones por Participante"
     (map (fun est => Str (fst est)) nums)
     (map (fun est => Float (Some (snd est)) Plain) nums)].

(** The rows [save_estimates] builds from a batch: one for each entry whose
    name is that of a participant of the frame, stamped with successive
    readings of the clock from [t] on. *)
Fixpoint matched_rows (ps : list participant) (session_id story_db_id : Z)
    (batch : list (string * raw)) (t : Z) : list estimate :=
  match batch with
  | [] => []
  | (name, card) :: rest =>
      match find_participant ps name with
      | Some p =>
          Estimate session_id story_db_id (p_id p) (py_str card) t
          :: matched_rows ps session_id story_db_id rest (t + 1)
      | None => matched_rows ps session_id story_db_id rest t
      end
  end.

End Notions.

(** The world after [n] readings of the clock. *)
Definition tick (n : nat) (w : world) : world := set_now (now w + Z.of_nat n) w.

(** The world after the rows of a batch were saved. *)
Definition saved (rows : list estimate) (w : world) : world :=
  match rows with
  | [] => w
  | _ :: _ => set_estimates (tbl_estimates w ++ rows) (tick (length rows) w)
  end.

(** The story as [update_story] leaves it. *)
Definition estimated (v : Q) (t : Z) (s : story) : story :=
  Story (s_id s) (s_session_id s) (s_story_id s) (s_title s) (s_description s)
        (s_acceptance_criteria s) (s_priority s) "estimated" (s_created_at s)
        (Some v) (Some t).

(** A session with three participants and one pending story, for the
    examples. *)
Definition demo_story : story :=
  Story 7 1 "US-001" "Login" "As a user" "Given" "High" "pending" 0 None None.

Definition demo_world : world :=
  World 1
        [Participant 10 1 "A" "Developer" None 0;
         Participant 11 1 "B" "QA" None 0;
         Participant 12 1 "C" "Designer" None 0]
        [demo_story] [] [] 100 [].

(** The same session with a store that answers the first request and fails
    the second. *)
Definition flaky_world : world :=
  set_faults [false; true] demo_world.

(** A session nobody joined yet. *)
Definition lonely_world : world :=
  World 1 [] [demo_story] [] [] 100 [].



(** Estimates that come in no order. *)
Definition demo_unsorted : list estimate_info :=
  [EstimateInfo "US-001" "Login" "A" "Developer" "13" 100;
   EstimateInfo "US-001" "Login" "B" "QA" "1" 101;
   EstimateInfo "US-001" "Login" "C" "Designer" "?" 102;
   EstimateInfo "US-001" "Login" "D" "QA" "2" 103].

(** ** Reasoning about a run: weakest preconditions *)

(** [wp c Q w]: run from [w], [c] ends in an outcome and a world that
    satisfy [Q]. *)
Definition wp {A} (c : M A) (Q : outcome A -> world -> Prop) (w : world) : Prop :=
  Q (fst (c w)) (snd (c w)).

(** The tables and the session are those of [w0]. *)
Definition same_tables (w0 w : world) : Prop :=
  current_session_id w = current_session_id w0 /\
  tbl_participants w = tbl_participants w0 /\
  tbl_user_stories w = tbl_user_stories w0 /\
  tbl_estimates w = tbl_estimates w0.

(** The rows are estimates of the story [id] in the session [sid]. *)
Definition rows_of (sid id : Z) (rows : list estimate) : Prop :=
  Forall (fun r => e_session_id r = sid /\ e_story_id r = id) rows.

(** From [w0] to [w], estimates of the story [id] were added and nothing
    else of the tables changed. *)
Definition added (id : Z) (rows : list estimate) (w0 w : world) : Prop :=
  current_session_id w = current_session_id w0 /\
  tbl_participants w = tbl_participants w0 /\
  tbl_user_stories w = tbl_user_stories w0 /\
  tbl_estimates w = tbl_estimates w0 ++ rows /\
  rows_of (current_session_id w0) id rows.

(** The stories after [update_story]. *)
Definition marked (id : Z) (v : Q) (t : Z) (stories : list story) : list story :=
  map (fun s => if Z.eqb (s_id s) id then estimated v t s else s) stories.

(** What a round may have done to the tables of [w0] when it ends in [r]
    and [w]: it added estimates of its story, and it marked its story only
    with a consensus and only after estimates were added. *)
Definition footprint (id : Z) (w0 : world) (r : round) (w : world) : Prop :=
  exists rows,
    current_session_id w = current_session_id w0 /\
    tbl_participants w = tbl_participants w0 /\
    tbl_estimates w = tbl_estimates w0 ++ rows /\
    rows_of (current_session_id w0) id rows /\
    (tbl_user_stories w = tbl_user_stories w0 \/
     rows <> [] /\
     exists v t, r = Consensus v /\
                 tbl_user_stories w = marked id v t (tbl_user_stories w0)).

(** The row that [get_estimates_df] builds for an estimate: the name and
    the role of the participant with its participant id, the code and the
    title of the story with its story id, as the tables of [w] have them. *)
Definition estimate_info_of (w : world) (e : estimate) : estimate_info :=
  let participant_result :=
    List.filter (fun p => Z.eqb (p_id p) (e_participant_id e)) (tbl_participants w) in
  let story_result :=
    List.filter (fun s => Z.eqb (s_id s) (e_story_id e)) (tbl_user_stories w) in
  EstimateInfo
    (match story_result with s :: _ => s_story_id s | [] => "N/A" end)
    (match story_result with s :: _ => s_title s | [] => "N/A" end)
    (match participant_result with p :: _ => p_name p | [] => "Desconocido" end)
    (match participant_result with p :: _ => p_role p | [] => "N/A" end)
    (e_estimate e) (e_estimated_at e).

(** The estimates of the current session, in the order of the table. *)
Definition session_estimates (w : world) : list estimate :=
  List.filter (fun e => Z.eqb (e_session_id e) (current_session_id w)) (tbl_estimates w).

(** The name is that of a participant of the frame. *)
Definition known_name (ps : list participant) (name : string) : bool :=
  existsb (String.eqb name) (map p_name ps).

(** ** Registering participants and stories *)

(** The id of a new row is given by the store. *)
Class StoreIds := {
  new_participant_id : world -> Z;
  new_story_id : world -> Z
}.

Definition set_participants (rows : list participant) (w : world) : world :=
  World (current_session_id w) rows (tbl_user_stories w) (tbl_estimates w)
        (faults w) (now w) (screen w).

(** [st.selectbox(label, options)]: one of the options, the one at the
    place the user chose; the box starts on the first option, and a place
    beyond the options counts as that.  No option, no choice: [None]. *)
Definition selectbox {A} (options : list A) (place : nat) : option A :=
  match options !! place with
  | Some x => Some x
  | None => head options
  end.

(** The roles and the priorities offered by the forms (lines 231 and 293). *)
Definition roles : list string :=
  ["Developer"; "Senior Developer"; "Tech Lead"; "Product Owner"; "Scrum Master";
   "QA"; "Designer"].

Definition priorities : list string := ["Low"; "Medium"; "High"; "Critical"].

(** What the user did with the form [add_participant]: the text of the two
    inputs, the place chosen in the box of roles, and whether the button
    was pressed. *)
Record participant_entry := ParticipantEntry {
  pe_name : string;
  pe_role : nat;
  pe_email : string;
  pe_submit : bool
}.

(** The same for the form [add_story]. *)
Record story_entry := StoryEntry {
  se_story_id : string;
  se_title : string;
  se_description : string;
  se_criteria : string;
  se_priority : nat;
  se_submit : bool
}.

Section Registration.
Context `{StoreIds}.

(** [table('participants').insert(participant_data)]. *)
Definition insert_participant (session_id : Z) (name role : string) (email : option string)
    (joined_at : Z) (w : world) : list participant * world :=
  let row := Participant (new_participant_id w) session_id name role email joined_at in
  ([row], set_participants (tbl_participants w ++ [row]) w).

(** [table('user_stories').insert(story_data)]: the columns that are not
    given stay empty. *)
Definition insert_story (session_id : Z) (story_id title description criteria priority : string)
    (created_at : Z) (w : world) : list story * world :=
  let row := Story (new_story_id w) session_id story_id title description criteria priority
                   "pending" created_at None None in
  ([row], set_user_stories (tbl_user_stories w ++ [row]) w).

(** [PlanningPokerApp.add_participant] (lines 86-101). *)
Definition add_participant (name role : string) (email : option string) : M bool :=
  try_except
    (session_id ← session_state;
     joined_at ← datetime_now;
     result_data ← execute (insert_participant session_id name role email joined_at);
     mret (negb (Nat.eqb (length result_data) 0)))
    (fun e =>
       st (st_error [Lit "Error añadiendo participante: "; Exn e]);;
       mret false).

(** [PlanningPokerApp.add_story] (lines 103-121). *)
Definition add_story (story_id title description criteria priority : string) : M bool :=
  try_except
    (session_id ← session_state;
     created_at ← datetime_now;
     result_data ←
       execute (insert_story session_id story_id title description criteria priority
                             created_at);
     mret (negb (Nat.eqb (length result_data) 0)))
    (fun e =>
       st (st_error [Lit "Error añadiendo historia: "; Exn e]);;
       mret false).

(** The left column of [render_participants_tab] (lines 227-242): the form
    that adds a participant.  [if name] holds of a text that is not empty,
    and [email or None] is [None] for the empty text. *)
Definition render_participants_form (entry : participant_entry) : M unit :=
  st (st_markdown [Lit "### ➕ Añadir Participante"]);;
  let name := pe_name entry in
  role ← of_option IndexError (selectbox roles (pe_role entry));
  let email := pe_email entry in
  if pe_submit entry then
    if negb (String.eqb name "") then
      added ← add_participant name role (if String.eqb email "" then None else Some email);
      if added : bool then
        st (st_success [Lit "✅ "; Str name; Lit " añadido!"]);;
        st st_rerun
      else st (st_error [Lit "❌ Error añadiendo participante"])
    else st (st_error [Lit "❌ El nombre es obligatorio"])
  else mret tt.

(** The left column of [render_stories_tab] (lines 286-303): the form that
    adds a story. *)
Definition render_stories_form (entry : story_entry) : M unit :=
  st (st_markdown [Lit "### ➕ Añadir Historia"]);;
  let story_id := se_story_id entry in
  let title := se_title entry in
  let description := se_description entry in
  let criteria := se_criteria entry in
  priority ← of_option IndexError (selectbox priorities (se_priority entry));
  if se_submit entry then
    if negb (String.eqb story_id "") && negb (String.eqb title "") then
      added ← add_story story_id title description criteria priority;
      if added : bool then
        st (st_success [Lit "✅ Historia "; Str story_id; Lit " añadida!"]);;
        st st_rerun
      else st (st_error [Lit "❌ Error añadiendo historia"])
    else st (st_error [Lit "❌ ID y título son obligatorios"])
  else mret tt.

End Registration.

(** A store that numbers the rows of a table one after the other, for the
    examples. *)
Definition serial_ids : StoreIds := {|
  new_participant_id w := (1 + fold_right Z.max 0 (map p_id (tbl_participants w)))%Z;
  new_story_id w := (1 + fold_right Z.max 0 (map s_id (tbl_user_stories w)))%Z
|}.

(** The session of [w0] gained the participant [p], and nothing else of the
    tables changed. *)
Definition joined (p : participant) (w0 w : world) : Prop :=
  current_session_id w = current_session_id w0 /\
  tbl_participants w = tbl_participants w0 ++ [p] /\
  tbl_user_stories w = tbl_user_stories w0 /\
  tbl_estimates w = tbl_estimates w0.

(** The session of [w0] gained the story [s], and nothing else of the
    tables changed. *)
Definition registered (s : story) (w0 w : world) : Prop :=
  current_session_id w = current_session_id w0 /\
  tbl_participants w = tbl_participants w0 /\
  tbl_user_stories w = tbl_user_stories w0 ++ [s] /\
  tbl_estimates w = tbl_estimates w0.

(** The stories of the current session, in the order of the table. *)
Definition session_stories (w : world) : list story :=
  List.filter (fun s => Z.eqb (s_session_id s) (current_session_id w)) (tbl_user_stories w).

(** ** The estimation tab *)

(** What the user did on the estimation tab: the place chosen in the box of
    the pending stories, the place chosen in the box of cards of each
    participant (the boxes are keyed by the id of the participant, the
    primary key of its row, so that no two boxes share a key), and whether
    the button was pressed.  The boxes and the button are read through the
    gesture; the screen records what the tab writes. *)
Record gesture := Gesture {
  g_story : nat;
  g_card : Z -> nat;
  g_button : bool
}.

(** [d[k] = v] on a dict in insertion order: a key that is there keeps its
    place and takes the new value. *)
Fixpoint dict_set {V} (k : string) (v : V) (d : list (string * V)) : list (string * V) :=
  match d with
  | [] => [(k, v)]
  | (k', v') :: rest =>
      if String.eqb k' k then (k', v) :: rest else (k', v') :: dict_set k v rest
  end.

Definition quote : string := String (ascii_of_nat 34) EmptyString.

(** A card of the deck, drawn in its column (lines 393-397). *)
Definition card_box (card : raw) : widget :=
  st_markdown
    [Lit ("<div style=" ++ quote ++
          "border: 2px solid #e0e0e0; border-radius: 10px; padding: 1rem; margin: 0.5rem; text-align: center; background: #f8f9fa;"
          ++ quote ++ "> <h3>")%string;
     Card card;
     Lit "</h3> </div>"].

Section EstimationTab.
Context `{PyRuntime}.

(** [render_estimation_tab] (lines 345-418). *)
Definition render_estimation_tab (g : gesture) : M unit :=
  st (st_subheader [Lit "🎯 Proceso de Estimación"]);;
  session_id ← session_state;
  stories_df ← get_stories_df session_id;
  session_id ← session_state;
  participants_df ← get_participants_df session_id;
  match stories_df, participants_df with
  | [], _ => st (st_warning [Lit "📝 Primero añade algunas historias de usuario"])
  | _ :: _, [] => st (st_warning [Lit "👥 Primero añade algunos participantes"])
  | _ :: _, _ :: _ =>
      status ← column "status" s_status stories_df;
      let pending_stories :=
        rows_where (map (fun x => String.eqb x "pending") status) stories_df in
      match pending_stories with
      | _ :: _ =>
          st (st_markdown [Lit "### 🎲 Selecciona Historia para Estimar"]);;
          options ← column "story_id" s_story_id pending_stories;
          match selectbox options (g_story g) with
          | Some selected_story =>
              if negb (String.eqb selected_story "") then
                story_ids ← column "story_id" s_story_id stories_df;
                story_row ←
                  of_option IndexError
                    (head (rows_where (map (fun x => String.eqb x selected_story) story_ids)
                                      stories_df));
                st (st_markdown
                      [Lit "**📋 "; Str (s_title story_row);
                       Lit "** **Descripción:** "; Str (s_description story_row);
                       Lit " **Criterios:** "; Str (s_acceptance_criteria story_row);
                       Lit " **Prioridad:** "; Str (s_priority story_row)]);;
                st (st_markdown [Lit "---"]);;
                st (st_markdown [Lit "### 🃏 Cartas de Estimación"]);;
                for_each all_cards tt (fun _ card => st (card_box card));;
                st (st_markdown [Lit "### 👥 Estimaciones de Participantes"]);;
                estimates ←
                  for_each participants_df []
                    (fun estimates participant =>
                       st (st_write [Lit "**"; Str (p_name participant); Lit "** (";
                                     Str (p_role participant); Lit ")"]);;
                       estimate ←
                         of_option IndexError
                           (selectbox all_cards (g_card g (p_id participant)));
                       mret (dict_set (p_name participant) estimate estimates));
                if g_button g then
                  analyze_estimates story_row estimates;;
                  mret tt
                else mret tt
              else mret tt
          | None => mret tt
          end
      | [] => st (st_info [Lit "✅ Todas las historias han sido estimadas"])
      end
  end.

End EstimationTab.

(** The pending stories of the current session. *)
Definition pending_stories (w : world) : list story :=
  List.filter (fun s => String.eqb (s_status s) "pending") (session_stories w).

(** The story the round is run for: the first story of the session that
    bears the code chosen in the box of the pending stories. *)
Definition chosen_story (g : gesture) (w : world) : option story :=
  match selectbox (map s_story_id (pending_stories w)) (g_story g) with
  | Some code =>
      if String.eqb code "" then None
      else head (List.filter (fun s => String.eqb (s_story_id s) code) (session_stories w))
  | None => None
  end.

(** The card chosen for a participant. *)
Definition chosen_card (g : gesture) (p : participant) : raw :=
  default (RInt 0) (selectbox all_cards (g_card g (p_id p))).

(** The batch the tab builds from the boxes of the participants. *)
Definition tab_batch (g : gesture) (ps : list participant) : list (string * raw) :=
  fold_left (fun d p => dict_set (p_name p) (chosen_card g p) d) ps [].

(** What the tab writes for a participant. *)
Definition participant_line (p : participant) : widget :=
  st_write [Lit "**"; Str (p_name p); Lit "** ("; Str (p_role p); Lit ")"].

(** Every story of [before] is as it was in [after], or it was a pending
    story of the session [sid] and is now estimated. *)
Definition only_pending_marked (sid : Z) (before after : list story) : Prop :=
  Forall2 (fun s s' =>
             s' = s \/
             s_status s = "pending" /\ s_session_id s = sid /\
             exists v t, s' = estimated v t s)
          before after.


(** ** Running the monad *)

Lemma bind_run {A B} (c : M A) (f : A -> M B) (w : world) :
  (c ≫= f) w = match c w with
               | (Ok a, w') => f a w'
               | (Raised e, w') => (Raised e, w')
               end.
Proof. reflexivity. Qed.

Lemma st_run (x : widget) (w : world) : st x w = (Ok tt, draw [x] w).
Proof. reflexivity. Qed.

Lemma draw_draw (a b : list widget) (w : world) : draw b (draw a w) = draw (a ++ b) w.
Proof. unfold draw, set_screen. simpl. by rewrite app_assoc. Qed.

Lemma draw_nil (w : world) : draw [] w = w.
Proof. destruct w. unfold draw, set_screen. simpl. by rewrite app_nil_r. Qed.

Lemma for_each_st {A} (l : list A) (body : unit -> A -> M unit) (g : A -> widget)
    (w : world) :
  (forall u x w', body u x w' = (Ok tt, draw [g x] w')) ->
  for_each l tt body w = (Ok tt, draw (map g l) w).
Proof.
  intros Hbody. revert w. induction l as [|x l IH]; intros w; simpl.
  - by rewrite draw_nil.
  - rewrite bind_run, Hbody, IH, draw_draw. reflexivity.
Qed.
(** ** Facts about [set], [min], [max] and [mean] *)

Lemma py_set_In (x : Q) (values : list Q) : In x (py_set values) -> In x values.
Proof.
  induction values as [|v vs IH]; simpl; [tauto|].
  intros [->|Hx]; [by left|].
  apply filter_In in Hx as [Hx _]. right. by apply IH.
Qed.

Lemma py_set_repr (x : Q) (values : list Q) :
  In x values -> exists y, In y (py_set values) /\ (y == x)%Q.
Proof.
  induction values as [|v vs IH]; simpl; [tauto|].
  intros [->|Hx].
  - exists x. split; [by left | reflexivity].
  - destruct (IH Hx) as (y & Hy & Hyx).
    destruct (Qeq_bool v y) eqn:E.
    + exists v. split; [by left|]. apply Qeq_bool_iff in E. by rewrite E.
    + exists y. split; [|done]. right. apply filter_In. by rewrite E.
Qed.

Lemma all_agree_cons (v : Q) (vs : list Q) :
  all_agree (v :: vs) <-> forall x, In x vs -> (v == x)%Q.
Proof.
  split.
  - intros Hall x Hx. apply Hall; [by left | by right].
  - intros Hv x y [<-|Hx] [<-|Hy].
    + reflexivity.
    + by apply Hv.
    + symmetry. by apply Hv.
    + rewrite <- (Hv x Hx). by apply Hv.
Qed.

Lemma py_set_one (values : list Q) :
  length (py_set values) = 1%nat <-> values <> [] /\ all_agree values.
Proof.
  destruct values as [|v vs]; simpl.
  - split; [discriminate | intros [? _]; congruence].
  - rewrite all_agree_cons. split.
    + intros Hlen. split; [discriminate|]. intros x Hx.
      destruct (py_set_repr x vs Hx) as (y & Hy & Hyx).
      destruct (Qeq_bool v y) eqn:E.
      * apply Qeq_bool_iff in E. by rewrite E.
      * assert (In y (List.filter (fun x => negb (Qeq_bool v x)) (py_set vs)))
          as Hin by (apply filter_In; by rewrite E).
        destruct (List.filter _ (py_set vs)); [destruct Hin | discriminate].
    + intros [_ Hv].
      destruct (List.filter _ (py_set vs)) as [|y l] eqn:E; [done|].
      assert (In y (List.filter (fun x => negb (Qeq_bool v x)) (py_set vs)))
        as Hin by (rewrite E; by left).
      apply filter_In in Hin as [Hy Hne].
      apply py_set_In, Hv, Qeq_bool_iff in Hy. by rewrite Hy in Hne.
Qed.





Lemma py_min_nonempty (values : list Q) :
  values <> [] -> exists m, py_min values = Some m.
Proof. destruct values; [congruence | eauto]. Qed.

Lemma py_max_nonempty (values : list Q) :
  values <> [] -> exists m, py_max values = Some m.
Proof. destruct values; [congruence | eauto]. Qed.

(** *** Rounding *)











Section MeanFacts.
Context `{PyRuntime}.




End MeanFacts.

(** ** The round *)

Lemma of_option_Some {A} (e : exn) (a : A) (w : world) :
  of_option e (Some a) w = (Ok a, w).
Proof. reflexivity. Qed.

Lemma ret_run {A} (a : A) (w : world) : (mret a : M A) w = (Ok a, w).
Proof. reflexivity. Qed.

Ltac step :=
  rewrite bind_run;
  first [rewrite st_run | rewrite of_option_Some | rewrite ret_run];
  cbv beta iota.

Lemma try_except_total {A} (c : M A) (h : exn -> M A) (w : world) :
  (forall e w1, exists a w2, h e w1 = (Ok a, w2)) ->
  exists a w', try_except c h w = (Ok a, w').
Proof.
  intros Hh. unfold try_except. destruct (c w) as [[a|e] w1]; eauto.
Qed.

Section RoundFacts.
Context `{PyRuntime}.

Lemma prelude_run {B} (estimates : list (string * raw)) (rest : M B) (w : world) :
  (st (st_markdown [Lit "### 📊 Resultados de Estimación"]);;
   st (st_dataframe (map (fun '(p, e) => [Str p; Card e]) estimates));;
   match special_estimates estimates with
   | [] => mret tt
   | _ :: _ =>
      st (st_warning [Lit "⚠️ Estimaciones especiales:"]);;
      for_each (special_estimates estimates) tt
        (fun _ '(participant, tok) =>
           st (st_write [Lit "- **"; Str participant; Lit "**: "; Str tok;
                         Lit " ("; Str (meaning tok); Lit ")"]))
   end;;
   rest) w = rest (draw (prelude estimates (special_estimates estimates)) w).
Proof.
  do 2 step. rewrite bind_run, draw_draw. unfold prelude.
  destruct (special_estimates estimates) as [|s l].
  - by rewrite app_nil_r.
  - step. rewrite (for_each_st _ _ special_line).
    2:{ intros u [p tok] w'. reflexivity. }
    rewrite !draw_draw. reflexivity.
Qed.

Lemma save_estimates_total (id : Z) (batch : list (string * raw)) (w : world) :
  exists b w', save_estimates id batch w = (Ok b, w').
Proof.
  apply try_except_total. intros e w1. step. rewrite ret_run. eauto.
Qed.

(** Fewer than two numeric estimates: no verdict, and only the screen
    changes. *)
Lemma analyze_inconclusive (story_row : story) (estimates : list (string * raw)) (w : world) :
  (length (numeric_estimates estimates) < 2)%nat ->
  analyze_estimates story_row estimates w =
    (Ok Inconclusive, draw (prelude estimates (special_estimates estimates)) w).
Proof.
  intros Hlen. unfold analyze_estimates.
  rewrite prelude_run.
  destruct (Nat.ltb_spec 1 (length (numeric_estimates estimates))); [lia|].
  reflexivity.
Qed.

Lemma analyze_no_consensus (story_row : story) (estimates : list (string * raw))
    (w : world) (lo hi : Q) :
  let nums := numeric_estimates estimates in
  (2 <= length nums)%nat ->
  py_min (map snd nums) = Some lo ->
  py_max (map snd nums) = Some hi ->
  length (py_set (map snd nums)) <> 1%nat ->
  analyze_estimates story_row estimates w =
    (Ok (NoConsensus lo hi),
     draw (prelude estimates (special_estimates estimates) ++ metrics nums lo hi ++
           [st_warning [Lit "🔄 Sin consenso. Rango: "; Float (Some lo) Plain;
                        Lit " - "; Float (Some hi) Plain];
            st_info [Lit "💬 Discutan las diferencias y vuelvan a estimar"]]) w).
Proof.
  intros nums Hlen Hmin Hmax Hset. unfold analyze_estimates.
  rewrite prelude_run. fold nums.
  destruct (Nat.ltb_spec 1 (length nums)); [|lia].
  rewrite Hmin, Hmax. do 6 step.
  destruct (Nat.eqb_spec (length (py_set (map snd nums))) 1); [done|].
  do 4 step. rewrite ret_run, !draw_draw. reflexivity.
Qed.

Lemma analyze_consensus (story_row : story) (estimates : list (string * raw))
    (w : world) :
  let nums := numeric_estimates estimates in
  (2 <= length nums)%nat ->
  length (py_set (map snd nums)) = 1%nat ->
  exists v w', head (map snd nums) = Some v /\
    analyze_estimates story_row estimates w = (Ok (Consensus v), w').
Proof.
  intros nums Hlen Hset. unfold analyze_estimates.
  rewrite prelude_run. fold nums.
  destruct (Nat.ltb_spec 1 (length nums)); [|lia].
  destruct (py_min_nonempty (map snd nums)) as [lo Hmin].
  { destruct nums; simpl in *; [lia | done]. }
  destruct (py_max_nonempty (map snd nums)) as [hi Hmax].
  { destruct nums; simpl in *; [lia | done]. }
  rewrite Hmin, Hmax. do 6 step. rewrite Hset.
  change (1 =? 1)%nat with true. cbv iota.
  destruct (map snd nums) as [|v vs] eqn:Hvals.
  { destruct nums; simpl in *; [lia | done]. }
  exists v. change (head (v :: vs)) with (Some v). do 2 step. rewrite bind_run.
  match goal with |- context [save_estimates ?i ?b ?w0] =>
    destruct (save_estimates_total i b w0) as (saved & w1 & ->) end.
  cbv beta iota. rewrite bind_run.
  destruct saved.
  - match goal with |- context [try_except ?c ?h w1] =>
      destruct (try_except_total c h w1) as ([] & w2 & ->) end.
    { intros e w2. rewrite st_run. eauto. }
    cbv beta iota. rewrite ret_run. eauto.
  - rewrite ret_run. cbv beta iota. rewrite ret_run. eauto.
Qed.

End RoundFacts.

(** ** Saving the estimates *)

Lemma tick_0 (w : world) : tick 0 w = w.
Proof. destruct w. unfold tick, set_now. simpl. by rewrite Z.add_0_r. Qed.

Lemma tick_S (n : nat) (w : world) : tick n (tick 1 w) = tick (S n) w.
Proof. unfold tick, set_now. simpl. f_equal. lia. Qed.

Lemma rows_where_filter {R} (f : R -> bool) (df : list R) :
  rows_where (map f df) df = List.filter f df.
Proof.
  unfold rows_where. induction df as [|r df IH]; simpl; [done|].
  destruct (f r); simpl; by rewrite IH.
Qed.

Lemma execute_healthy {A} (request : world -> A * world) (w : world) :
  faults w = [] -> execute request w = (Ok (fst (request w)), snd (request w)).
Proof. intros Hf. unfold execute. rewrite Hf. by destruct (request w). Qed.

Lemma get_participants_df_healthy (w : world) :
  faults w = [] ->
  get_participants_df (current_session_id w) w = (Ok (session_participants w), w).
Proof.
  intros Hf. unfold get_participants_df, try_except.
  rewrite bind_run, execute_healthy by done. reflexivity.
Qed.

Section SaveFacts.
Context `{PyRuntime}.

Lemma matched_rows_loop (ps : list participant) (id : Z)
    (body : list estimate -> string * raw -> M (list estimate))
    (batch : list (string * raw)) (acc : list estimate) (w : world) :
  (forall acc name card w,
     body acc (name, card) w =
       match find_participant ps name with
       | Some p =>
           (Ok (acc ++ [Estimate (current_session_id w) id (p_id p) (py_str card) (now w)]),
            tick 1 w)
       | None => (Ok acc, w)
       end) ->
  let rows := matched_rows ps (current_session_id w) id batch (now w) in
  for_each batch acc body w = (Ok (acc ++ rows), tick (length rows) w).
Proof.
  intros Hbody. revert acc w.
  induction batch as [|[name card] batch IH]; intros acc w; simpl.
  - by rewrite app_nil_r, tick_0.
  - rewrite bind_run, Hbody.
    destruct (find_participant ps name) as [p|]; [|apply IH].
    rewrite IH. simpl. by rewrite <- app_assoc, tick_S.
Qed.

(** With a store that answers and a session that has participants,
    [save_estimates] inserts the matched rows and nothing else, draws
    nothing, and tells whether it inserted anything. *)
Lemma save_estimates_healthy (id : Z) (batch : list (string * raw)) (w : world) :
  faults w = [] ->
  session_participants w <> [] \/ batch = [] ->
  let rows := matched_rows (session_participants w) (current_session_id w) id batch (now w) in
  save_estimates id batch w = (Ok (negb (Nat.eqb (length rows) 0)), saved rows w).
Proof.
  intros Hf Hps rows. unfold save_estimates, try_except.
  rewrite bind_run. unfold session_state at 1. cbv beta iota.
  rewrite bind_run, get_participants_df_healthy by done. cbv beta iota.
  rewrite bind_run.
  destruct Hps as [Hps| ->].
  - rewrite (matched_rows_loop (session_participants w) id).
    2:{ intros acc name card w'. destruct (session_participants w) as [|p0 ps] eqn:E; [done|].
        rewrite bind_run. unfold column. rewrite ret_run. cbv beta iota.
        rewrite map_map, rows_where_filter. unfold find_participant.
        destruct (List.filter _ (p0 :: ps)) as [|p l]; reflexivity. }
    fold rows. simpl app. destruct rows as [|r rows'] eqn:E.
    + simpl. by rewrite tick_0.
    + change ([] ++ r :: rows') with (r :: rows'). cbv iota.
      rewrite bind_run, execute_healthy by done. reflexivity.
  - reflexivity.
Qed.

(** With a session that has no participant, the first look at the column
    [name] raises: the error is reported and nothing is inserted. *)
Lemma save_estimates_no_participants (id : Z) (batch : list (string * raw)) (w : world) :
  faults w = [] ->
  session_participants w = [] ->
  batch <> [] ->
  save_estimates id batch w =
    (Ok false,
     draw [st_error [Lit "Error guardando estimaciones: "; Exn (KeyError "name")]] w).
Proof.
  intros Hf Hps Hbatch. unfold save_estimates, try_except.
  rewrite bind_run. unfold session_state at 1. cbv beta iota.
  rewrite bind_run, get_participants_df_healthy, Hps by done. cbv beta iota.
  destruct batch as [|[name card] batch]; [done|]. reflexivity.
Qed.

End SaveFacts.

(** ** The round, continued *)

Lemma in_deck_not_special (r : raw) : in_deck r = false -> is_special r = None.
Proof.
  destruct r as [z|x|s]; try reflexivity. simpl.
  destruct (String.eqb_spec s "?") as [->|_]; [discriminate|].
  destruct (String.eqb_spec s "∞") as [->|_]; [discriminate|].
  reflexivity.
Qed.

Section RoundTotal.
Context `{PyRuntime}.

Lemma values_nonempty (estimates : list (string * raw)) :
  (2 <= length (numeric_estimates estimates))%nat ->
  map snd (numeric_estimates estimates) <> [].
Proof. destruct (numeric_estimates estimates); simpl; [lia | done]. Qed.

(** The round never raises: whatever the batch, one of the three verdicts
    comes out. *)
Lemma analyze_estimates_total (story_row : story) (estimates : list (string * raw))
    (w : world) :
  exists r w', analyze_estimates story_row estimates w = (Ok r, w').
Proof.
  destruct (le_lt_dec 2 (length (numeric_estimates estimates))) as [Hlen|Hlen].
  - destruct (Nat.eq_dec (length (py_set (map snd (numeric_estimates estimates)))) 1)
      as [Hset|Hset].
    + destruct (analyze_consensus story_row estimates w Hlen Hset) as (v & w' & _ & ->).
      eauto.
    + destruct (py_min_nonempty _ (values_nonempty _ Hlen)) as [lo Hlo].
      destruct (py_max_nonempty _ (values_nonempty _ Hlen)) as [hi Hhi].
      rewrite (analyze_no_consensus story_row estimates w lo hi) by done. eauto.
  - rewrite analyze_inconclusive by done. eauto.
Qed.

(** A round that does not end in consensus touches nothing but the
    screen. *)
Lemma analyze_without_consensus (story_row : story) (estimates : list (string * raw))
    (w w' : world) (r : round) :
  analyze_estimates story_row estimates w = (Ok r, w') ->
  (forall v, r <> Consensus v) ->
  exists ws, w' = draw ws w.
Proof.
  intros Hrun Hr.
  destruct (le_lt_dec 2 (length (numeric_estimates estimates))) as [Hlen|Hlen].
  - destruct (Nat.eq_dec (length (py_set (map snd (numeric_estimates estimates)))) 1)
      as [Hset|Hset].
    + destruct (analyze_consensus story_row estimates w Hlen Hset) as (v & w1 & _ & Hc).
      rewrite Hc in Hrun. injection Hrun as <- _. by destruct (Hr v).
    + destruct (py_min_nonempty _ (values_nonempty _ Hlen)) as [lo Hlo].
      destruct (py_max_nonempty _ (values_nonempty _ Hlen)) as [hi Hhi].
      rewrite (analyze_no_consensus story_row estimates w lo hi) in Hrun by done.
      injection Hrun as _ <-. eauto.
  - rewrite analyze_inconclusive in Hrun by done. injection Hrun as _ <-. eauto.
Qed.

(** Consensus with a store that answers and at least one row to save: the
    rows are inserted, then the story is marked. *)
Lemma analyze_consensus_healthy (story_row : story) (estimates : list (string * raw))
    (w : world) (v lo hi : Q) :
  let nums := numeric_estimates estimates in
  let rows := matched_rows (session_participants w) (current_session_id w)
                           (s_id story_row) estimates (now w) in
  faults w = [] ->
  (2 <= length nums)%nat ->
  length (py_set (map snd nums)) = 1%nat ->
  head (map snd nums) = Some v ->
  py_min (map snd nums) = Some lo ->
  py_max (map snd nums) = Some hi ->
  rows <> [] ->
  analyze_estimates story_row estimates w =
    (Ok (Consensus v),
     World (current_session_id w) (tbl_participants w)
           (map (fun s => if Z.eqb (s_id s) (s_id story_row)
                          then estimated v (now w + Z.of_nat (length rows)) s else s)
                (tbl_user_stories w))
           (tbl_estimates w ++ rows)
           [] (now w + Z.of_nat (length rows) + 1)
           (screen w ++ prelude estimates (special_estimates estimates) ++
            metrics nums lo hi ++
            [st_success [Lit "🎉 ¡CONSENSO! Todos estimaron: "; Float (Some v) Plain];
             st_success [Lit "✅ Estimación guardada!"]; st_rerun])).
Proof.
  intros nums rows Hf Hlen Hset Hhead Hmin Hmax Hrows. unfold analyze_estimates.
  rewrite prelude_run. fold nums.
  destruct (Nat.ltb_spec 1 (length nums)); [|lia].
  rewrite Hmin, Hmax. do 6 step. rewrite Hset.
  change (1 =? 1)%nat with true. cbv iota.
  rewrite Hhead. do 2 step. rewrite !draw_draw. rewrite bind_run.
  rewrite save_estimates_healthy.
  2:{ done. }
  2:{ left. intros Hps. apply Hrows. subst rows. unfold session_participants in *.
      simpl in Hps. rewrite Hps. clear.
      generalize (now w). induction estimates as [|[n c] l IH]; intros t; simpl; [done|].
      apply IH. }
  change (session_participants (draw _ w)) with (session_participants w).
  change (current_session_id (draw _ w)) with (current_session_id w).
  change (now (draw _ w)) with (now w).
  fold rows. destruct rows as [|r0 rows0] eqn:E; [done|].
  cbv beta iota. change (negb (length (r0 :: rows0) =? 0)%nat) with true.
  cbv iota. rewrite bind_run. unfold try_except.
  rewrite bind_run, of_option_Some. cbv beta iota.
  rewrite bind_run. unfold datetime_now at 1. cbv beta iota.
  rewrite bind_run, execute_healthy by done. cbv beta iota.
  do 1 step. rewrite st_run. cbv beta iota. rewrite ret_run.
  f_equal. unfold draw, saved, tick, set_screen, set_estimates, set_now, update_story,
    set_user_stories, estimated. simpl.
  rewrite Hf. f_equal. rewrite <- ?app_assoc. simpl. rewrite <- ?app_assoc. reflexivity.
Qed.

End RoundTotal.

(** ** The claims about the round *)

Section RoundClaims.
Context `{PyRuntime}.

Lemma matched_rows_nonempty (ps : list participant) (sid id : Z)
    (batch : list (string * raw)) (t : Z) :
  (exists name card p, In (name, card) batch /\ In p ps /\ p_name p = name) ->
  matched_rows ps sid id batch t <> [].
Proof.
  intros (name & card & p & Hin & Hp & Hname). revert t.
  induction batch as [|[n c] batch IH]; intros t; simpl; [destruct Hin|].
  destruct (find_participant ps n) as [q|] eqn:E; [done|].
  destruct Hin as [[= -> ->]|Hin]; [|by apply IH].
  exfalso. unfold find_participant in E.
  assert (In p (List.filter (fun p => String.eqb name (p_name p)) ps)) as Hf.
  { apply filter_In. split; [done|]. rewrite Hname. apply String.eqb_refl. }
  destruct (List.filter _ ps); [destruct Hf | discriminate].
Qed.

(** C1, as the program has it: a batch whose numeric estimates all agree
    reaches consensus on their value as soon as there are two of them,
    special tokens or not; the tokens are listed in a warning and play no
    part in the verdict.  With fewer than two numeric estimates the round
    is inconclusive.  The verdict is never NoConsensus. *)
Theorem agreement_with_special_token (story_row : story)
    (estimates : list (string * raw)) (w : world) :
  let values := map snd (numeric_estimates estimates) in
  all_agree values ->
  ((2 <= length values)%nat ->
     exists v w', head values = Some v /\
       analyze_estimates story_row estimates w = (Ok (Consensus v), w')) /\
  ((length values < 2)%nat ->
     analyze_estimates story_row estimates w =
       (Ok Inconclusive, draw (prelude estimates (special_estimates estimates)) w)).
Proof.
  intros values Hagree. subst values. rewrite length_map. split; intros Hlen.
  - apply analyze_consensus; [done|]. apply py_set_one.
    split; [by apply values_nonempty | done].
  - by apply analyze_inconclusive.
Qed.

(** C2, as the program has it: a raw value outside the deck is not a
    special token, so it goes through [float]: when [float] accepts it the
    entry counts as a numeric estimate, and when [float] rejects it the
    entry is dropped and the others are kept.  Nothing checks the deck, and
    a batch that holds such a value still gets a verdict. *)
Theorem card_outside_deck (r : raw) :
  in_deck r = false ->
  (forall participant rest,
     split_estimates ((participant, r) :: rest) =
       match py_float r with
       | Some x => ((participant, x) :: numeric_estimates rest, special_estimates rest)
       | None => (numeric_estimates rest, special_estimates rest)
       end) /\
  (forall story_row estimates w,
     In r (map snd estimates) ->
     exists verdict w', analyze_estimates story_row estimates w = (Ok verdict, w')).
Proof.
  intros Hdeck. split.
  - intros participant rest. simpl. rewrite (in_deck_not_special r Hdeck).
    unfold numeric_estimates, special_estimates.
    destruct (split_estimates rest). by destruct (py_float r).
  - intros story_row estimates w _. apply analyze_estimates_total.
Qed.

(** C3, as the program has it: on the empty batch the round does not fail;
    it draws the heading and an empty table and ends without a verdict,
    like any round with fewer than two numeric estimates. *)
Theorem empty_batch_is_inconclusive (story_row : story) (w : world) :
  analyze_estimates story_row [] w =
    (Ok Inconclusive,
     draw [st_markdown [Lit "### 📊 Resultados de Estimación"]; st_dataframe []] w).
Proof. by rewrite analyze_inconclusive by (simpl; lia). Qed.

(** C4: a batch with fewer than two numeric estimates is inconclusive,
    never a consensus: the consensus test is not reached, and only the
    screen changes. *)
Theorem few_numeric_inconclusive (story_row : story) (estimates : list (string * raw))
    (w : world) :
  (length (numeric_estimates estimates) < 2)%nat ->
  analyze_estimates story_row estimates w =
    (Ok Inconclusive, draw (prelude estimates (special_estimates estimates)) w) /\
  forall v, fst (analyze_estimates story_row estimates w) <> Ok (Consensus v).
Proof.
  intros Hlen. rewrite analyze_inconclusive by done. split; [done | discriminate].
Qed.

(** C5, as the program has it: a round that ends in NoConsensus or
    Inconclusive persists nothing: no Estimate row is inserted, and the
    stories are left as they were. *)
Theorem no_consensus_persists_nothing (story_row : story)
    (estimates : list (string * raw)) (w w' : world) (r : round) :
  analyze_estimates story_row estimates w = (Ok r, w') ->
  (exists lo hi, r = NoConsensus lo hi) \/ r = Inconclusive ->
  tbl_estimates w' = tbl_estimates w /\
  tbl_user_stories w' = tbl_user_stories w.
Proof.
  intros Hrun Hr.
  destruct (analyze_without_consensus story_row estimates w w' r Hrun) as [ws ->].
  - intros v ->. destruct Hr as [(lo & hi & [=])|[=]].
  - done.
Qed.

(** C6, as the program has it: when a round reaches Consensus(value), the
    store answers, and some entry of the batch bears the name of a
    participant of the session (so that [save_estimates] returns True), the
    story is set to 'estimated' with [final_estimate = value] and a
    timestamp read during the round; [value] is the number on which all the
    numeric estimates agree. *)
Theorem consensus_marks_story (story_row : story) (estimates : list (string * raw))
    (w w' : world) (v : Q) :
  faults w = [] ->
  (exists name card p,
     In (name, card) estimates /\ In p (session_participants w) /\ p_name p = name) ->
  analyze_estimates story_row estimates w = (Ok (Consensus v), w') ->
  (exists t, (now w <= t < now w')%Z /\
     tbl_user_stories w' =
       map (fun s => if Z.eqb (s_id s) (s_id story_row) then estimated v t s else s)
           (tbl_user_stories w)) /\
  (forall x, In x (map snd (numeric_estimates estimates)) -> (x == v)%Q).
Proof.
  intros Hf Hmatch Hrun.
  pose proof (matched_rows_nonempty _ (current_session_id w) (s_id story_row) _ (now w)
                Hmatch) as Hrows.
  destruct (le_lt_dec 2 (length (numeric_estimates estimates))) as [Hlen|Hlen].
  2:{ rewrite analyze_inconclusive in Hrun by done. discriminate. }
  destruct (py_min_nonempty _ (values_nonempty _ Hlen)) as [lo Hlo].
  destruct (py_max_nonempty _ (values_nonempty _ Hlen)) as [hi Hhi].
  destruct (Nat.eq_dec (length (py_set (map snd (numeric_estimates estimates)))) 1)
    as [Hset|Hset].
  2:{ rewrite (analyze_no_consensus story_row estimates w lo hi) in Hrun by done.
      discriminate. }
  destruct (map snd (numeric_estimates estimates)) as [|v0 vs] eqn:Hvals.
  { by destruct (values_nonempty _ Hlen). }
  rewrite (analyze_consensus_healthy story_row estimates w v0 lo hi) in Hrun;
    rewrite ?Hvals; try done.
  injection Hrun as <- <-. split.
  - eexists. split; [|reflexivity]. simpl. lia.
  - apply py_set_one in Hset as [_ Hagree]. intros x Hx. apply Hagree; [done | by left].
Qed.




End RoundClaims.

(** ** The round on concrete batches *)

Lemma agreement_with_special_token_witness :
  special_estimates [("A", RInt 5); ("B", RInt 5); ("C", RStr "?")] <> [] /\
  all_agree (map snd (numeric_estimates [("A", RInt 5); ("B", RInt 5); ("C", RStr "?")])) /\
  exists v w',
    head (map snd (numeric_estimates [("A", RInt 5); ("B", RInt 5); ("C", RStr "?")])) = Some v /\
    analyze_estimates demo_story [("A", RInt 5); ("B", RInt 5); ("C", RStr "?")] demo_world =
      (Ok (Consensus v), w').
Proof.
  assert (special_estimates [("A", RInt 5); ("B", RInt 5); ("C", RStr "?")] <> []) as Hs
    by discriminate.
  assert (all_agree (map snd (numeric_estimates
            [("A", RInt 5); ("B", RInt 5); ("C", RStr "?")]))) as Ha.
  { apply py_set_one. reflexivity. }
  split; [exact Hs|]. split; [exact Ha|].
  apply (agreement_with_special_token demo_story _ demo_world Ha).
  vm_compute. lia.
Defined.

(** C1 as stated fails: A and B say 5, C says '?', and the round is a
    consensus on 5; the story is marked estimated. *)
Lemma special_token_does_not_block :
  special_estimates [("A", RInt 5); ("B", RInt 5); ("C", RStr "?")] = [("C", "?")] /\
  map snd (numeric_estimates [("A", RInt 5); ("B", RInt 5); ("C", RStr "?")]) = [5%Q; 5%Q] /\
  fst (analyze_estimates demo_story [("A", RInt 5); ("B", RInt 5); ("C", RStr "?")]
         demo_world) = Ok (Consensus 5) /\
  map s_status
      (tbl_user_stories
         (snd (analyze_estimates demo_story
                 [("A", RInt 5); ("B", RInt 5); ("C", RStr "?")] demo_world))) =
    ["estimated"].
Proof. repeat split; vm_compute; reflexivity. Qed.

Lemma card_outside_deck_witness :
  in_deck (RInt 4) = false /\
  split_estimates [("A", RInt 4)] = ([("A", 4%Q)], []).
Proof.
  split; [reflexivity|].
  destruct (card_outside_deck (RInt 4) eq_refl) as [Hsplit _].
  rewrite Hsplit. reflexivity.
Defined.

(** C2 as stated fails: 4 is not a card of the deck, yet two 4s are a
    consensus on 4 and the story is finalised with it; "abc" is not a card
    either, and the round goes on without it. *)
Lemma card_outside_deck_accepted :
  in_deck (RInt 4) = false /\
  fst (analyze_estimates demo_story [("A", RInt 4); ("B", RInt 4)] demo_world) =
    Ok (Consensus 4) /\
  map s_final_estimate
      (tbl_user_stories
         (snd (analyze_estimates demo_story [("A", RInt 4); ("B", RInt 4)] demo_world))) =
    [Some 4%Q] /\
  in_deck (RStr "abc") = false /\
  fst (analyze_estimates demo_story
         [("A", RStr "abc"); ("B", RInt 5); ("C", RInt 5)] demo_world) =
    Ok (Consensus 5).
Proof. repeat split; vm_compute; reflexivity. Qed.

(** C3 as stated fails: the empty batch returns, with no verdict, and draws
    no error. *)
Lemma empty_batch_does_not_fail :
  analyze_estimates demo_story [] demo_world =
    (Ok Inconclusive,
     World 1 (tbl_participants demo_world) [demo_story] [] [] 100
           [st_markdown [Lit "### 📊 Resultados de Estimación"]; st_dataframe []]).
Proof. vm_compute. reflexivity. Qed.

Lemma few_numeric_inconclusive_witness :
  (length (numeric_estimates [("A", RInt 2)]) < 2)%nat /\
  fst (analyze_estimates demo_story [("A", RInt 2)] demo_world) = Ok Inconclusive.
Proof.
  assert (length (numeric_estimates [("A", RInt 2)]) < 2)%nat as Hlen by (vm_compute; lia).
  split; [exact Hlen|].
  destruct (few_numeric_inconclusive demo_story [("A", RInt 2)] demo_world Hlen) as [Hrun _].
  rewrite Hrun. reflexivity.
Defined.

Lemma no_consensus_persists_nothing_witness :
  analyze_estimates demo_story [("A", RInt 3); ("B", RInt 8)] demo_world =
    (Ok (NoConsensus 3 8),
     snd (analyze_estimates demo_story [("A", RInt 3); ("B", RInt 8)] demo_world)) /\
  tbl_estimates (snd (analyze_estimates demo_story [("A", RInt 3); ("B", RInt 8)] demo_world)) =
    tbl_estimates demo_world /\
  tbl_user_stories (snd (analyze_estimates demo_story [("A", RInt 3); ("B", RInt 8)] demo_world)) =
    tbl_user_stories demo_world.
Proof.
  assert (analyze_estimates demo_story [("A", RInt 3); ("B", RInt 8)] demo_world =
    (Ok (NoConsensus 3 8),
     snd (analyze_estimates demo_story [("A", RInt 3); ("B", RInt 8)] demo_world))) as Hrun
    by (vm_compute; reflexivity).
  split; [exact Hrun|].
  apply (no_consensus_persists_nothing demo_story _ demo_world _ _ Hrun).
  left. eauto.
Defined.

(** C5 as stated fails: A and B, both participants of the session, say 3
    and 8; the round is NoConsensus and no Estimate row is persisted. *)
Lemma no_consensus_saves_no_estimate :
  map p_name (session_participants demo_world) = ["A"; "B"; "C"] /\
  fst (analyze_estimates demo_story [("A", RInt 3); ("B", RInt 8)] demo_world) =
    Ok (NoConsensus 3 8) /\
  tbl_estimates (snd (analyze_estimates demo_story [("A", RInt 3); ("B", RInt 8)] demo_world)) =
    [] /\
  tbl_estimates (snd (analyze_estimates demo_story [("A", RInt 2)] demo_world)) = [].
Proof. repeat split; vm_compute; reflexivity. Qed.

Lemma consensus_marks_story_witness :
  faults demo_world = [] /\
  (exists t, (now demo_world <= t <
              now (snd (analyze_estimates demo_story [("A", RInt 5); ("B", RInt 5)]
                          demo_world)))%Z /\
     tbl_user_stories
       (snd (analyze_estimates demo_story [("A", RInt 5); ("B", RInt 5)] demo_world)) =
       map (fun s => if Z.eqb (s_id s) (s_id demo_story) then estimated 5 t s else s)
           (tbl_user_stories demo_world)) /\
  (forall x, In x (map snd (numeric_estimates [("A", RInt 5); ("B", RInt 5)])) -> (x == 5)%Q).
Proof.
  split; [reflexivity|].
  apply (consensus_marks_story demo_story [("A", RInt 5); ("B", RInt 5)] demo_world).
  - reflexivity.
  - exists "A", (RInt 5), (Participant 10 1 "A" "Developer" None 0).
    split; [by left|]. split; [by left | reflexivity].
  - vm_compute. reflexivity.
Defined.

(** C6 as stated fails: the round is a consensus on 5, but the story stays
    pending when the insert of the estimates fails, and when no name of the
    batch is that of a participant of the session. *)
Lemma consensus_without_update :
  fst (analyze_estimates demo_story [("A", RInt 5); ("B", RInt 5)] flaky_world) =
    Ok (Consensus 5) /\
  tbl_user_stories
    (snd (analyze_estimates demo_story [("A", RInt 5); ("B", RInt 5)] flaky_world)) =
    [demo_story] /\
  fst (analyze_estimates demo_story [("X", RInt 5); ("Y", RInt 5)] demo_world) =
    Ok (Consensus 5) /\
  tbl_user_stories
    (snd (analyze_estimates demo_story [("X", RInt 5); ("Y", RInt 5)] demo_world)) =
    [demo_story] /\
  s_status demo_story = "pending" /\ s_final_estimate demo_story = None.
Proof. repeat split; vm_compute; reflexivity. Qed.



(** ** Analytics *)

Lemma column_run {R A} (name : string) (get : R -> A) (r : R) (df : list R) (w : world) :
  column name get (r :: df) w = (Ok (map get (r :: df)), w).
Proof. reflexivity. Qed.

Lemma session_state_run (w : world) : session_state w = (Ok (current_session_id w), w).
Proof. reflexivity. Qed.

Lemma for_each_total {A B} (l : list A) (body : B -> A -> M B) (acc : B) (w : world) :
  (exists b w', for_each l acc body w = (Ok b, w')) \/
  (exists e w', for_each l acc body w = (Raised e, w')).
Proof.
  destruct (for_each l acc body w) as [[b|e] w']; eauto.
Qed.

Lemma get_participants_df_total (sid : Z) (w : world) :
  exists df w', get_participants_df sid w = (Ok df, w').
Proof. apply try_except_total. intros e w1. rewrite ret_run. eauto. Qed.

Lemma get_stories_df_total (sid : Z) (w : world) :
  exists df w', get_stories_df sid w = (Ok df, w').
Proof. apply try_except_total. intros e w1. rewrite ret_run. eauto. Qed.

Lemma get_estimates_df_total (sid : Z) (w : world) :
  exists df w', get_estimates_df sid w = (Ok df, w').
Proof.
  apply try_except_total. intros e w1. step. rewrite ret_run. eauto.
Qed.

(** A store that fails the first request yields an empty frame and an
    error on the screen. *)
Lemma get_estimates_df_failure (sid : Z) (w : world) (fs : list bool) :
  faults w = true :: fs ->
  get_estimates_df sid w =
    (Ok [], draw [st_error [Lit "Error obteniendo estimaciones: "; Exn StoreError]]
              (set_faults fs w)).
Proof.
  intros Hf. unfold get_estimates_df, try_except.
  rewrite bind_run. unfold execute at 1. rewrite Hf. cbv beta iota.
  step. by rewrite ret_run.
Qed.

Section AnalyticsFacts.
Context `{PyRuntime}.


Lemma numeric_subset_filter_nil {R} (get : R -> string) (f : R -> bool) (df : list R) :
  numeric_subset (map get df) = [] ->
  numeric_subset (map get (List.filter f df)) = [].
Proof.
  unfold numeric_subset. induction df as [|r df IH]; simpl; [done|].
  destruct (to_numeric (get r)) eqn:E; simpl; [discriminate|].
  intros Hnil. destruct (f r); simpl; [rewrite E|]; by apply IH.
Qed.

Lemma participant_stats_no_data (estimates_df : list estimate_info) :
  numeric_subset (map i_estimate estimates_df) = [] ->
  participant_stats estimates_df = [].
Proof.
  intros Hnil. unfold participant_stats.
  induction (merge_sort _ _) as [|name names IH]; simpl; [done|].
  rewrite numeric_subset_filter_nil by done. simpl. exact IH.
Qed.

Lemma render_analytics_tab_total (w : world) :
  exists w', render_analytics_tab w = (Ok tt, w').
Proof.
  unfold render_analytics_tab. step. rewrite bind_run, session_state_run. cbv beta iota.
  rewrite bind_run.
  destruct (get_estimates_df_total (current_session_id (draw [st_subheader [Lit "📊 Analytics de la Sesión"]] w))
              (draw [st_subheader [Lit "📊 Analytics de la Sesión"]] w)) as (df & w1 & ->).
  cbv beta iota. destruct df as [|r df].
  - rewrite st_run. eauto.
  - cbv iota. rewrite bind_run, column_run. cbv beta iota. do 2 step.
    rewrite bind_run, column_run. cbv beta iota. step.
    rewrite bind_run, column_run. cbv beta iota. step.
    rewrite bind_run.
    destruct (numeric_subset (map i_estimate (r :: df))) as [|x xs];
      [rewrite ret_run | rewrite st_run]; cbv beta iota;
      rewrite bind_run;
      (destruct (participant_stats (r :: df)) as [|s ss];
        [rewrite ret_run | rewrite st_run]); cbv beta iota;
      step; rewrite st_run; eauto.
Qed.

Lemma reports_stories_total (stories_df : list story) (w : world) :
  exists w', reports_stories stories_df w = (Ok tt, w').
Proof.
  destruct stories_df as [|s l]; unfold reports_stories.
  - rewrite ret_run. eauto.
  - rewrite bind_run, column_run. cbv beta iota. rewrite st_run. eauto.
Qed.

(** The summary of the estimates, as it is drawn. *)
Lemma reports_estimates_run (participants_df : list participant)
    (r : estimate_info) (df : list estimate_info) (w : world) :
  let numeric := numeric_subset (map i_estimate (r :: df)) in
  reports_estimates participants_df (r :: df) w =
    (Ok tt,
     draw [st_markdown
             [Lit "**🎯 Estimaciones:** - Total: "; Int (Z.of_nat (length (r :: df)));
              Lit " - Promedio: "; Float (mean numeric) OneDecimal;
              Lit " - Mediana: "; Float (median numeric) OneDecimal;
              Lit " - Participantes: ";
              Int (match participants_df with
                   | [] => 0%Z
                   | _ :: _ => nunique (map p_name participants_df)
                   end)]] w).
Proof.
  intros numeric. unfold reports_estimates.
  rewrite bind_run, column_run. cbv beta iota. rewrite bind_run.
  destruct participants_df as [|p ps].
  - rewrite ret_run. cbv beta iota. by rewrite st_run.
  - rewrite bind_run, column_run. cbv beta iota. rewrite ret_run. cbv beta iota.
    by rewrite st_run.
Qed.

Lemma reports_estimates_total (participants_df : list participant)
    (estimates_df : list estimate_info) (w : world) :
  exists w', reports_estimates participants_df estimates_df w = (Ok tt, w').
Proof.
  destruct estimates_df as [|r df].
  - unfold reports_estimates. rewrite ret_run. eauto.
  - rewrite reports_estimates_run. eauto.
Qed.

Lemma render_reports_tab_total (w : world) :
  exists w', render_reports_tab w = (Ok tt, w').
Proof.
  unfold render_reports_tab. step. rewrite bind_run, session_state_run. cbv beta iota.
  rewrite bind_run.
  match goal with |- context [get_stories_df ?s ?w0] =>
    destruct (get_stories_df_total s w0) as (stories & w1 & ->) end.
  cbv beta iota. rewrite bind_run.
  match goal with |- context [get_participants_df ?s ?w0] =>
    destruct (get_participants_df_total s w0) as (participants & w2 & ->) end.
  cbv beta iota. rewrite bind_run.
  match goal with |- context [get_estimates_df ?s ?w0] =>
    destruct (get_estimates_df_total s w0) as (estimates & w3 & ->) end.
  cbv beta iota. step. rewrite bind_run.
  match goal with |- context [reports_stories ?s ?w0] =>
    destruct (reports_stories_total s w0) as (w4 & ->) end.
  cbv beta iota. apply reports_estimates_total.
Qed.

End AnalyticsFacts.

(** ** The median *)

#[local] Instance Qle_bool_total : Total (fun a b : Q => Is_true (Qle_bool a b)).
Proof.
  intros x y. destruct (Qlt_le_dec x y) as [Hlt|Hle].
  - left. apply Is_true_true, Qle_bool_iff, Qlt_le_weak, Hlt.
  - right. apply Is_true_true, Qle_bool_iff, Hle.
Qed.

#[local] Instance Qle_bool_trans : Transitive (fun a b : Q => Is_true (Qle_bool a b)).
Proof.
  intros x y z Hxy%Is_true_true%Qle_bool_iff Hyz%Is_true_true%Qle_bool_iff.
  apply Is_true_true, Qle_bool_iff. by eapply Qle_trans.
Qed.

Lemma filter_length_perm {A} (f : A -> bool) (l l' : list A) :
  l ≡ₚ l' -> length (List.filter f l) = length (List.filter f l').
Proof.
  induction 1 as [|x l l' _ IH|x y l|l l' l'' _ IH1 _ IH2]; simpl.
  - done.
  - destruct (f x); simpl; by rewrite IH.
  - by destruct (f x), (f y).
  - by rewrite IH1.
Qed.

Lemma filter_length_le {A} (f : A -> bool) (l : list A) :
  (length (List.filter f l) <= length l)%nat.
Proof. induction l as [|x l IH]; simpl; [done|]. destruct (f x); simpl; lia. Qed.

Lemma filter_length_all {A} (f : A -> bool) (l : list A) :
  Forall (fun x => f x = true) l -> length (List.filter f l) = length l.
Proof. induction 1 as [|x l Hx _ IH]; simpl; [done|]. rewrite Hx. simpl. by rewrite IH. Qed.

(** In a sorted list, the entries up to the place [k] are at most what
    stands there. *)
Lemma sorted_count_le (s : list Q) (k : nat) (a m : Q) :
  StronglySorted (fun a b => Is_true (Qle_bool a b)) s ->
  s !! k = Some a -> (a <= m)%Q ->
  (k + 1 <= length (List.filter (fun x => Qle_bool x m) s))%nat.
Proof.
  intros Hs. revert k. induction Hs as [|x l _ IH Hx]; intros k Hk Ham; [done|].
  destruct k as [|k]; simpl in *.
  - injection Hk as ->. apply Qle_bool_iff in Ham. rewrite Ham. simpl. lia.
  - assert (x <= a)%Q as Hxa.
    { apply Qle_bool_iff, Is_true_true.
      rewrite List.Forall_forall in Hx. apply Hx.
      apply list_elem_of_In. by eapply list_elem_of_lookup_2. }
    assert (Qle_bool x m = true) as -> by (apply Qle_bool_iff; by eapply Qle_trans).
    simpl. specialize (IH k Hk Ham). lia.
Qed.

(** And the entries from the place [k] on are at least what stands there. *)
Lemma sorted_count_ge (s : list Q) (k : nat) (b m : Q) :
  StronglySorted (fun a b => Is_true (Qle_bool a b)) s ->
  s !! k = Some b -> (m <= b)%Q ->
  (length s - k <= length (List.filter (fun x => Qle_bool m x) s))%nat.
Proof.
  intros Hs. revert k. induction Hs as [|x l _ IH Hx]; intros k Hk Hmb; [done|].
  destruct k as [|k]; simpl in Hk.
  - injection Hk as ->. rewrite filter_length_all; [lia|].
    constructor; [by apply Qle_bool_iff|].
    rewrite List.Forall_forall in Hx. apply List.Forall_forall. intros y Hy.
    apply Qle_bool_iff. eapply Qle_trans; [done|]. by apply Qle_bool_iff, Is_true_true, Hx.
  - specialize (IH k Hk Hmb). simpl. destruct (Qle_bool m x); simpl; lia.
Qed.

Lemma sorted_lookup_le (s : list Q) (i j : nat) (a b : Q) :
  StronglySorted (fun a b => Is_true (Qle_bool a b)) s ->
  s !! i = Some a -> s !! j = Some b -> (i < j)%nat -> (a <= b)%Q.
Proof.
  intros Hs. revert i j. induction Hs as [|x l _ IH Hx]; intros i j Hi Hj Hij; [done|].
  destruct j as [|j]; [lia|]. destruct i as [|i]; simpl in *.
  - injection Hi as ->. apply Qle_bool_iff, Is_true_true.
    rewrite List.Forall_forall in Hx. apply Hx, list_elem_of_In.
    by eapply list_elem_of_lookup_2.
  - apply (IH i j); [done | done | lia].
Qed.

(** The median of a series that is not empty splits it in two halves. *)
Lemma median_of_values (values : list Q) :
  values <> [] ->
  exists m,
    median values = Some m /\
    (length values <= 2 * length (List.filter (fun x => Qle_bool x m) values))%nat /\
    (length values <= 2 * length (List.filter (fun x => Qle_bool m x) values))%nat.
Proof.
  intros Hne. unfold median.
  pose proof (merge_sort_Permutation (fun a b => Is_true (Qle_bool a b)) values) as Hperm.
  pose proof (StronglySorted_merge_sort (fun a b => Is_true (Qle_bool a b)) values) as Hs.
  fold (sort_floats values) in Hperm, Hs.
  set (s := sort_floats values) in *.
  assert (length s = length values) as Hlen by (by rewrite Hperm).
  assert (0 < length s)%nat as Hpos.
  { rewrite Hlen. destruct values; [done | simpl; lia]. }
  rewrite <- Hlen.
  destruct (Nat.odd (length s)) eqn:Hodd.
  - destruct (lookup_lt_is_Some_2 s (length s / 2)) as [m Hm].
    { apply Nat.div_lt; lia. }
    exists m. split; [done|].
    rewrite <- !(filter_length_perm _ s values) by done.
    pose proof (sorted_count_le s _ m m Hs Hm (Qle_refl m)).
    pose proof (sorted_count_ge s _ m m Hs Hm (Qle_refl m)).
    pose proof (Nat.div_mod_eq (length s) 2).
    pose proof (Nat.mod_upper_bound (length s) 2).
    lia.
  - assert (Nat.even (length s) = true) as Heven.
    { rewrite <- Nat.negb_odd. by rewrite Hodd. }
    apply Nat.even_spec in Heven as [h Hh].
    assert (length s / 2 = h)%nat as Hhalf.
    { rewrite Hh, Nat.mul_comm. by apply Nat.div_mul. }
    rewrite Hhalf.
    destruct (lookup_lt_is_Some_2 s (h - 1)) as [a Ha]; [lia|].
    destruct (lookup_lt_is_Some_2 s h) as [b Hb]; [lia|].
    rewrite Ha, Hb. eexists. split; [reflexivity|].
    rewrite <- !(filter_length_perm _ s values) by done.
    assert (a <= b)%Q as Hab by (apply (sorted_lookup_le s (h - 1) h); [done..|lia]).
    assert (a <= (a + b) / 2)%Q as Hlo.
    { apply Qle_shift_div_l; [reflexivity|].
      assert (a * 2 == a + a)%Q as E by ring. rewrite E. by apply Qplus_le_r. }
    assert ((a + b) / 2 <= b)%Q as Hhi.
    { apply Qle_shift_div_r; [reflexivity|].
      assert (b * 2 == b + b)%Q as E by ring. rewrite E. by apply Qplus_le_l. }
    pose proof (sorted_count_le s _ a _ Hs Ha Hlo).
    pose proof (sorted_count_ge s _ b _ Hs Hb Hhi).
    lia.
Qed.

(** ** The claims about the analytics and about saving *)

Section AnalyticsClaims.
Context `{PyRuntime}.


(** C9: the analytics never raise.  Whatever the tables hold and whichever
    requests the store fails, the analytics tab and the summary of the
    reports tab run to their end, and [get_estimates_df] returns a frame,
    the empty one when the store fails; with no numeric estimate the mean
    and the median are [nan] and no participant has an average. *)
Theorem analytics_never_fail (w : world) :
  (exists w', render_analytics_tab w = (Ok tt, w')) /\
  (exists w', render_reports_tab w = (Ok tt, w')) /\
  (forall stories_df, exists w', reports_stories stories_df w = (Ok tt, w')) /\
  (forall participants_df estimates_df,
     exists w', reports_estimates participants_df estimates_df w = (Ok tt, w')) /\
  (forall sid, exists df w', get_estimates_df sid w = (Ok df, w')) /\
  (forall sid, match faults w with
               | true :: _ => fst (get_estimates_df sid w) = Ok []
               | _ => True
               end) /\
  (forall estimates_df,
     match numeric_subset (map i_estimate estimates_df) with
     | [] => mean (numeric_subset (map i_estimate estimates_df)) = None /\
             median (numeric_subset (map i_estimate estimates_df)) = None /\
             participant_stats estimates_df = []
     | _ :: _ => True
     end).
Proof.
  split; [apply render_analytics_tab_total|].
  split; [apply render_reports_tab_total|].
  split; [intros; apply reports_stories_total|].
  split; [intros; apply reports_estimates_total|].
  split; [intros; apply get_estimates_df_total|].
  split.
  - intros sid. destruct (faults w) as [|[] fs] eqn:Hf; [done| |done].
    by rewrite (get_estimates_df_failure sid w fs).
  - intros df. destruct (numeric_subset (map i_estimate df)) eqn:E; [|done].
    split; [done|]. split; [done|]. by apply participant_stats_no_data.
Qed.

Lemma matched_rows_spec (ps : list participant) (sid id : Z)
    (batch : list (string * raw)) (t : Z) :
  map (fun r => (e_participant_id r, e_estimate r)) (matched_rows ps sid id batch t) =
    omap (fun entry => p ← find_participant ps (fst entry); Some (p_id p, py_str (snd entry)))
         batch /\
  Forall (fun r => e_session_id r = sid /\ e_story_id r = id) (matched_rows ps sid id batch t).
Proof.
  revert t. induction batch as [|[name card] batch IH]; intros t; simpl; [done|].
  destruct (find_participant ps name) as [p|]; simpl.
  - destruct (IH (t + 1)%Z) as [-> Hall]. split; [done|]. by constructor.
  - apply IH.
Qed.

(** X1: [save_estimates] in a session that has participants and with a
    store that answers: the rows inserted are those of the entries whose name is
    that of a participant, in the order of the batch, each with the id of
    the first participant of that name and the text of the card; the other
    entries are passed over without a word, and the result tells whether a
    row was inserted. *)
Theorem save_estimates_inserts_matched (id : Z) (batch : list (string * raw)) (w : world) :
  faults w = [] ->
  session_participants w <> [] ->
  exists rows w',
    save_estimates id batch w = (Ok (negb (Nat.eqb (length rows) 0)), w') /\
    tbl_estimates w' = tbl_estimates w ++ rows /\
    screen w' = screen w /\
    tbl_user_stories w' = tbl_user_stories w /\
    map (fun r => (e_participant_id r, e_estimate r)) rows =
      omap (fun entry =>
              p ← find_participant (session_participants w) (fst entry);
              Some (p_id p, py_str (snd entry)))
           batch /\
    Forall (fun r => e_session_id r = current_session_id w /\ e_story_id r = id) rows.
Proof.
  intros Hf Hps.
  exists (matched_rows (session_participants w) (current_session_id w) id batch (now w)).
  eexists. split; [apply save_estimates_healthy; auto|].
  destruct (matched_rows_spec (session_participants w) (current_session_id w) id batch (now w))
    as [Hmap Hall].
  repeat split; try done;
    destruct (matched_rows _ _ _ _ _); simpl; try done; by rewrite app_nil_r.
Qed.

End AnalyticsClaims.


(** The same summary on estimates that come in no order and whose mean is
    not a double: the median of 13, 1 and 2 is 2, and their mean is the
    double 5.333333333333333. *)
Lemma estimate_summary_unsorted :
  reports_estimates [] demo_unsorted demo_world =
    (Ok tt,
     draw [st_markdown
             [Lit "**🎯 Estimaciones:** - Total: "; Int 4;
              Lit " - Promedio: ";
              Float (Some (6004799503160661 # 1125899906842624)) OneDecimal;
              Lit " - Mediana: "; Float (Some 2%Q) OneDecimal;
              Lit " - Participantes: "; Int 0]] demo_world) /\
  one_decimal (6004799503160661 # 1125899906842624) = "5.3".
Proof. split; vm_compute; reflexivity. Qed.

Lemma save_estimates_inserts_matched_witness :
  faults demo_world = [] /\
  session_participants demo_world <> [] /\
  save_estimates 7 [("A", RInt 5); ("Z", RInt 3); ("B", RStr "?")] demo_world =
    (Ok true,
     World 1 (tbl_participants demo_world) [demo_story]
           [Estimate 1 7 10 "5" 100; Estimate 1 7 11 "?" 101] [] 102 []).
Proof.
  split; [reflexivity|]. split; [discriminate|].
  destruct (save_estimates_inserts_matched 7 [("A", RInt 5); ("Z", RInt 3); ("B", RStr "?")]
              demo_world eq_refl) as (rows & w' & Hrun & _); [discriminate|].
  clear Hrun. vm_compute. reflexivity.
Defined.

(** C10 at a session nobody joined: the entry is not passed over in
    silence; the look at the column [name] of the empty frame raises, the
    error is drawn, and nothing is inserted. *)
Lemma save_estimates_lonely_session :
  session_participants lonely_world = [] /\
  save_estimates 7 [("A", RInt 5)] lonely_world =
    (Ok false,
     World 1 [] [demo_story] [] [] 100
           [st_error [Lit "Error guardando estimaciones: "; Exn (KeyError "name")]]) /\
  save_estimates 7 [] lonely_world = (Ok false, lonely_world).
Proof. repeat split; vm_compute; reflexivity. Qed.

(** ** The runtime of the examples on the cards of the deck *)

Example parse_cards :
  map Decimal.parse ["5"; "0.5"; "13"; "?"; "∞"; "abc"] =
    [Some 5%Q; Some (1 # 2); Some 13%Q; None; None; None].
Proof. reflexivity. Qed.

Example str_of_cards :
  map py_str [RInt 0; RFloat (1 # 2); RInt 13; RStr "?"] = ["0"; "0.5"; "13"; "?"].
Proof. reflexivity. Qed.

Example deck_membership :
  map in_deck [RInt 5; RFloat 5; RFloat (1 # 2); RStr "∞"; RInt 4; RStr "5"] =
    [true; true; true; true; false; false].
Proof. reflexivity. Qed.

(** ** What a verdict tells about the batch *)



Section Verdicts.
Context `{PyRuntime}.


End Verdicts.


(** ** Batches of cards of the deck *)

Lemma deck_card_cases (c : raw) :
  In c all_cards ->
  (exists s, c = RStr s /\ is_special c = Some s) \/
  (exists z, c = RInt z /\ is_special c = None /\
             round_double (inject_Z z) = inject_Z z) \/
  (exists x, c = RFloat x /\ is_special c = None).
Proof.
  unfold all_cards, fibonacci_cards, special_cards. simpl.
  intros Hin.
  repeat (destruct Hin as [<-|Hin];
          [first [by left; eexists
                 | right; left; eexists; split; [reflexivity|];
                   split; [reflexivity | vm_compute; reflexivity]
                 | by right; right; eexists]|]).
  destruct Hin.
Qed.

Section DeckBatches.
Context `{PyRuntime}.

(** X4: when every card of the batch is one the deck offers, the first loop
    of [analyze_estimates] loses no entry: a number lands in the numeric
    estimates with its value, a token in the special ones, and the two lists
    together are as long as the batch. *)
Theorem deck_cards_are_all_counted (estimates : list (string * raw)) :
  (forall p c, In (p, c) estimates -> In c all_cards) ->
  (length (numeric_estimates estimates) + length (special_estimates estimates) =
     length estimates)%nat /\
  (forall p c, In (p, c) estimates ->
     match c with
     | RInt z => In (p, inject_Z z) (numeric_estimates estimates)
     | RFloat x => In (p, x) (numeric_estimates estimates)
     | RStr s => In (p, s) (special_estimates estimates)
     end).
Proof.
  unfold numeric_estimates, special_estimates.
  induction estimates as [|[q d] rest IH]; intros Hdeck; [by split|].
  destruct IH as [IHlen IHin].
  { intros p c Hin. apply (Hdeck p c). by right. }
  simpl. destruct (split_estimates rest) as [nums specs]. simpl in IHlen, IHin.
  destruct (deck_card_cases d (Hdeck q d (or_introl eq_refl)))
    as [(s & Hd & Hs)|[(z & Hd & Hs & Hz)|(x & Hd & Hs)]]; rewrite Hs; subst d;
    cbn [py_float fst snd length]; rewrite ?Hz; split;
    try (simpl; lia); intros p c [[= <- <-]|Hin]; try (by left);
    specialize (IHin p c Hin); destruct c; simpl; auto.
Qed.

End DeckBatches.

Lemma deck_cards_are_all_counted_witness :
  (forall p c, In (p, c) [("A", RInt 5); ("B", RFloat (1 # 2)); ("C", RStr "∞")] ->
               In c all_cards) /\
  (length (numeric_estimates [("A", RInt 5); ("B", RFloat (1 # 2)); ("C", RStr "∞")]) +
   length (special_estimates [("A", RInt 5); ("B", RFloat (1 # 2)); ("C", RStr "∞")]) =
     3)%nat.
Proof.
  assert (forall p c, In (p, c) [("A", RInt 5); ("B", RFloat (1 # 2)); ("C", RStr "∞")] ->
                      In c all_cards) as Hdeck.
  { intros p c [[= <- <-]|[[= <- <-]|[[= <- <-]|[]]]]; vm_compute; tauto. }
  split; [exact Hdeck|].
  exact (proj1 (deck_cards_are_all_counted _ Hdeck)).
Defined.

(** ** Rules for weakest preconditions *)

Lemma wp_mono {A} (c : M A) (Q Q' : outcome A -> world -> Prop) (w : world) :
  (forall r w', Q r w' -> Q' r w') -> wp c Q w -> wp c Q' w.
Proof. unfold wp. auto. Qed.

Lemma wp_ret {A} (a : A) (Q : outcome A -> world -> Prop) (w : world) :
  Q (Ok a) w -> wp (mret a : M A) Q w.
Proof. done. Qed.

Lemma wp_raise {A} (e : exn) (Q : outcome A -> world -> Prop) (w : world) :
  Q (Raised e) w -> wp (raise e) Q w.
Proof. done. Qed.

Lemma wp_bind {A B} (c : M A) (f : A -> M B) (Q : outcome B -> world -> Prop) (w : world) :
  wp c (fun r w1 => match r with
                    | Ok a => wp (f a) Q w1
                    | Raised e => Q (Raised e) w1
                    end) w ->
  wp (c ≫= f) Q w.
Proof. unfold wp. rewrite bind_run. by destruct (c w) as [[a|e] w1]. Qed.

Lemma wp_try_except {A} (c : M A) (h : exn -> M A) (Q : outcome A -> world -> Prop)
    (w : world) :
  wp c (fun r w1 => match r with
                    | Ok a => Q (Ok a) w1
                    | Raised e => wp (h e) Q w1
                    end) w ->
  wp (try_except c h) Q w.
Proof. unfold wp, try_except. by destruct (c w) as [[a|e] w1]. Qed.

Lemma wp_st (x : widget) (Q : outcome unit -> world -> Prop) (w : world) :
  Q (Ok tt) (draw [x] w) -> wp (st x) Q w.
Proof. done. Qed.

Lemma wp_session_state (Q : outcome Z -> world -> Prop) (w : world) :
  Q (Ok (current_session_id w)) w -> wp session_state Q w.
Proof. done. Qed.

Lemma wp_datetime_now (Q : outcome Z -> world -> Prop) (w : world) :
  Q (Ok (now w)) (tick 1 w) -> wp datetime_now Q w.
Proof. unfold wp, tick. simpl. by rewrite Z.add_comm, Z.add_comm. Qed.

Lemma wp_of_option {A} (e : exn) (o : option A) (Q : outcome A -> world -> Prop)
    (w : world) :
  match o with Some a => Q (Ok a) w | None => Q (Raised e) w end ->
  wp (of_option e o) Q w.
Proof. by destruct o. Qed.

Lemma wp_column {R A} (name : string) (get : R -> A) (df : list R)
    (Q : outcome (list A) -> world -> Prop) (w : world) :
  match df with
  | [] => Q (Raised (KeyError name)) w
  | _ :: _ => Q (Ok (map get df)) w
  end ->
  wp (column name get df) Q w.
Proof. by destruct df. Qed.

(** A request fails or is carried out, as the store decides. *)
Lemma wp_execute {A} (request : world -> A * world) (Q : outcome A -> world -> Prop)
    (w : world) :
  (forall fs, Q (Raised StoreError) (set_faults fs w)) ->
  (forall fs, Q (Ok (fst (request (set_faults fs w)))) (snd (request (set_faults fs w)))) ->
  wp (execute request) Q w.
Proof.
  intros Hfail Hok. unfold wp, execute.
  destruct (faults w) as [|[] fs] eqn:Hf.
  - specialize (Hok []). rewrite <- Hf in Hok.
    replace (set_faults (faults w) w) with w in Hok by (by destruct w).
    by destruct (request w).
  - apply Hfail.
  - specialize (Hok fs). by destruct (request (set_faults fs w)).
Qed.

Lemma wp_for_each {A B} (I : B -> world -> Prop) (l : list A) (acc : B)
    (body : B -> A -> M B) (Q : outcome B -> world -> Prop) (w : world) :
  I acc w ->
  (forall acc x w1, In x l -> I acc w1 ->
     wp (body acc x) (fun r w2 => match r with
                                  | Ok acc' => I acc' w2
                                  | Raised e => Q (Raised e) w2
                                  end) w1) ->
  (forall acc w1, I acc w1 -> Q (Ok acc) w1) ->
  wp (for_each l acc body) Q w.
Proof.
  intros Hinit Hbody Hend. revert acc w Hinit.
  induction l as [|x l IH]; intros acc w Hinit; simpl.
  - by apply wp_ret, Hend.
  - apply wp_bind. eapply wp_mono; [|apply (Hbody acc x w); [by left | done]].
    intros [acc'|e] w2 Hr; [|done]. apply IH; [|done].
    intros acc0 y w1 Hy. apply Hbody. by right.
Qed.

(** ** What the tables keep *)

Lemma same_tables_refl (w : world) : same_tables w w.
Proof. by repeat split. Qed.

Lemma same_tables_draw (w0 w : world) (ws : list widget) :
  same_tables w0 w -> same_tables w0 (draw ws w).
Proof. done. Qed.

Lemma same_tables_faults (w0 w : world) (fs : list bool) :
  same_tables w0 w -> same_tables w0 (set_faults fs w).
Proof. done. Qed.

Lemma same_tables_tick (w0 w : world) (n : nat) :
  same_tables w0 w -> same_tables w0 (tick n w).
Proof. done. Qed.

Lemma get_participants_df_keeps (sid : Z) (w0 w : world) :
  same_tables w0 w ->
  wp (get_participants_df sid)
     (fun r w1 => exists df, r = Ok df /\ same_tables w0 w1 /\
                  (df = [] \/ df = List.filter (fun p => Z.eqb (p_session_id p) sid)
                                               (tbl_participants w0))) w.
Proof.
  intros Hw. unfold get_participants_df. apply wp_try_except, wp_bind, wp_execute.
  - intros fs. apply wp_ret. exists []. auto using same_tables_faults.
  - intros fs. apply wp_ret. eexists. split; [done|]. split; [done|].
    right. simpl. by destruct Hw as (_ & -> & _).
Qed.

Section SaveAnyStore.
Context `{PyRuntime}.

Lemma save_estimates_keeps (id : Z) (batch : list (string * raw)) (w0 w : world) :
  same_tables w0 w ->
  wp (save_estimates id batch)
     (fun r w1 => exists b rows, r = Ok b /\ added id rows w0 w1 /\
                                 (if b : bool then rows <> [] else rows = [])) w.
Proof.
  intros Hw.
  set (Q := fun (r : outcome bool) (w1 : world) =>
              exists b rows, r = Ok b /\ added id rows w0 w1 /\
                             (if b : bool then rows <> [] else rows = [])).
  assert (forall w1, same_tables w0 w1 -> Q (Ok false) w1) as Hfalse.
  { intros w1 (Hs & Hp & Hu & He). exists false, []. split; [done|]. split; [|done].
    unfold added, rows_of. rewrite app_nil_r. by repeat split. }
  unfold save_estimates. apply wp_try_except, wp_bind, wp_session_state, wp_bind.
  eapply wp_mono; [|apply (get_participants_df_keeps _ w0 w), Hw].
  intros r w1 (df & -> & Hw1 & _).
  apply wp_bind.
  apply (wp_for_each (fun acc w2 => same_tables w0 w2 /\
                                    rows_of (current_session_id w0) id acc)).
  - split; [done | constructor].
  - intros acc [name card] w2 _ [Hw2 Hacc]. apply wp_bind, wp_column.
    destruct df as [|p df].
    { apply wp_bind, wp_st, wp_ret, Hfalse. by apply same_tables_draw. }
    destruct (rows_where _ _) as [|first rest]; [by apply wp_ret|].
    apply wp_bind, wp_session_state, wp_bind, wp_datetime_now, wp_ret.
    split; [by apply same_tables_tick|].
    apply Forall_app. split; [done|]. constructor; [|constructor].
    split; [apply Hw2 | done].
  - intros rows w2 [Hw2 Hrows]. destruct rows as [|r0 rows]; [by apply wp_ret, Hfalse|].
    apply wp_bind, wp_execute.
    + intros fs. apply wp_bind, wp_st, wp_ret, Hfalse.
      by apply same_tables_draw, same_tables_faults.
    + intros fs. apply wp_ret. exists true, (r0 :: rows). split; [done|].
      split; [|done]. destruct Hw2 as (? & ? & ? & Hest).
      repeat split; try done. simpl. by rewrite Hest.
Qed.

(** X5: whatever the store does, [save_estimates] returns a boolean, leaves
    the session, the participants and the stories as they were, and tells
    the truth about the table of estimates: True means that rows were
    appended to it (at least one, all of this story and this session),
    False that it was left as it was. *)
Theorem save_estimates_tells_the_truth (id : Z) (batch : list (string * raw))
    (w : world) :
  exists b rows,
    fst (save_estimates id batch w) = Ok b /\
    added id rows w (snd (save_estimates id batch w)) /\
    (if b : bool then rows <> [] else rows = []).
Proof. apply (save_estimates_keeps id batch w w), same_tables_refl. Qed.

End SaveAnyStore.

Lemma wp_run {A} (c : M A) (Q : outcome A -> world -> Prop) (w : world)
    (r : outcome A) (w' : world) :
  c w = (r, w') -> Q r w' -> wp c Q w.
Proof. unfold wp. by intros ->. Qed.

Lemma footprint_same_tables (id : Z) (w0 w : world) (r : round) :
  same_tables w0 w -> footprint id w0 r w.
Proof.
  intros (Hs & Hp & Hu & He). exists []. rewrite app_nil_r.
  repeat split; try done; [constructor | by left].
Qed.

Section RoundAnyStore.
Context `{PyRuntime}.

Lemma analyze_estimates_keeps (story_row : story) (estimates : list (string * raw))
    (w0 w : world) :
  same_tables w0 w ->
  wp (analyze_estimates story_row estimates)
     (fun o w1 => exists r, o = Ok r /\ footprint (s_id story_row) w0 r w1) w.
Proof.
  intros Hw.
  set (id := s_id story_row).
  set (Q := fun (o : outcome round) (w1 : world) =>
              exists r, o = Ok r /\ footprint id w0 r w1).
  assert (forall r w1, same_tables w0 w1 -> Q (Ok r) w1) as Hsame.
  { intros r w1 Hw1. exists r. split; [done|]. by apply footprint_same_tables. }
  unfold wp, analyze_estimates. rewrite prelude_run.
  set (w2 := draw _ w). assert (same_tables w0 w2) as Hw2 by done.
  clearbody w2. clear w Hw.
  match goal with |- Q (fst (?c w2)) _ => change (wp c Q w2) end.
  set (nums := numeric_estimates estimates).
  destruct (Nat.ltb_spec 1 (length nums)) as [Hlen|Hlen]; [|by apply wp_ret, Hsame].
  destruct (py_min_nonempty (map snd nums)) as [lo Hmin].
  { by apply values_nonempty. }
  destruct (py_max_nonempty (map snd nums)) as [hi Hmax].
  { by apply values_nonempty. }
  rewrite Hmin, Hmax.
  apply wp_bind, wp_ret, wp_bind, wp_st, wp_bind, wp_ret, wp_bind, wp_st, wp_bind, wp_st,
    wp_bind, wp_st.
  destruct (Nat.eqb (length (py_set (map snd nums))) 1).
  2:{ apply wp_bind, wp_ret, wp_bind, wp_ret, wp_bind, wp_st, wp_bind, wp_st, wp_ret, Hsame.
      done. }
  destruct (map snd nums) as [|v vs] eqn:Hvals.
  { by destruct (values_nonempty estimates Hlen). }
  change (head (v :: vs)) with (Some v).
  apply wp_bind, wp_ret, wp_bind, wp_st, wp_bind.
  eapply wp_mono; [|apply (save_estimates_keeps id estimates w0); done].
  intros o w1 (b & rows & -> & Hadd & Hb).
  destruct Hadd as (Hs & Hp & Hu & He & Hrows).
  assert (forall w3, current_session_id w3 = current_session_id w1 ->
                     tbl_participants w3 = tbl_participants w1 ->
                     tbl_estimates w3 = tbl_estimates w1 ->
                     tbl_user_stories w3 = tbl_user_stories w1 ->
                     Q (Ok (Consensus v)) w3) as Hkeep.
  { intros w3 Hs3 Hp3 He3 Hu3. exists (Consensus v). split; [done|]. exists rows.
    rewrite Hs3, Hp3, He3, Hu3. repeat split; try done. by left. }
  destruct b.
  2:{ apply wp_bind, wp_ret, wp_ret. by apply Hkeep. }
  apply wp_bind, wp_try_except, wp_bind, wp_ret, wp_bind, wp_datetime_now, wp_bind,
    wp_execute.
  - intros fs. apply wp_st, wp_ret. by apply Hkeep.
  - intros fs. apply wp_bind, wp_st, wp_st, wp_ret.
    exists (Consensus v). split; [done|]. exists rows.
    repeat split; try done. right. split; [done|].
    exists v, (now w1). split; [done|]. simpl. by rewrite Hu.
Qed.

(** X6: whatever the batch and whatever the store does, [analyze_estimates]
    ends with a verdict; it leaves the session and the participants as they
    were; it only appends to the estimates, and only rows of its story and
    session; and the stories are either untouched, or the verdict is a
    consensus on [v], estimates were appended, and exactly the stories with
    the id of [story_row] were marked estimated with [v]. *)
Theorem round_footprint (story_row : story) (estimates : list (string * raw))
    (w : world) :
  exists r,
    fst (analyze_estimates story_row estimates w) = Ok r /\
    footprint (s_id story_row) w r (snd (analyze_estimates story_row estimates w)).
Proof. apply (analyze_estimates_keeps story_row estimates w w), same_tables_refl. Qed.

End RoundAnyStore.

(** ** A store that answers some requests and fails others *)

Lemma execute_answers {A} (request : world -> A * world) (w : world) (fs : list bool) :
  faults w = false :: fs ->
  execute request w = (Ok (fst (request (set_faults fs w))), snd (request (set_faults fs w))).
Proof. intros Hf. unfold execute. rewrite Hf. by destruct (request (set_faults fs w)). Qed.

Lemma execute_fails {A} (request : world -> A * world) (w : world) (fs : list bool) :
  faults w = true :: fs ->
  execute request w = (Raised StoreError, set_faults fs w).
Proof. intros Hf. unfold execute. by rewrite Hf. Qed.

Lemma get_participants_df_answers (w : world) (fs : list bool) :
  faults w = false :: fs ->
  get_participants_df (current_session_id w) w = (Ok (session_participants w), set_faults fs w).
Proof.
  intros Hf. unfold get_participants_df, try_except.
  by rewrite bind_run, (execute_answers _ w fs).
Qed.

Section PartialCommit.
Context `{PyRuntime}.

Lemma save_estimates_answers (id : Z) (batch : list (string * raw)) (w : world)
    (fs : list bool) :
  faults w = false :: false :: fs ->
  let rows := matched_rows (session_participants w) (current_session_id w) id batch (now w) in
  rows <> [] ->
  save_estimates id batch w = (Ok true, set_faults fs (saved rows w)).
Proof.
  intros Hf rows Hrows. unfold save_estimates, try_except.
  rewrite bind_run. unfold session_state at 1. cbv beta iota.
  rewrite bind_run, (get_participants_df_answers w (false :: fs)) by done. cbv beta iota.
  rewrite bind_run.
  assert (session_participants w <> []) as Hps.
  { intros Hps. apply Hrows. subst rows. rewrite Hps. clear.
    generalize (now w). induction batch as [|[n c] l IH]; intros t; simpl; [done|].
    apply IH. }
  rewrite (matched_rows_loop (session_participants w) id).
  2:{ intros acc name card w'. destruct (session_participants w) as [|p0 ps] eqn:E; [done|].
      rewrite bind_run. unfold column. rewrite ret_run. cbv beta iota.
      rewrite map_map, rows_where_filter. unfold find_participant.
      destruct (List.filter _ (p0 :: ps)) as [|p l]; reflexivity. }
  change (current_session_id (set_faults _ w)) with (current_session_id w).
  change (now (set_faults _ w)) with (now w).
  fold rows. simpl app. destruct rows as [|r rows'] eqn:E; [done|].
  change ([] ++ r :: rows') with (r :: rows'). cbv beta iota.
  rewrite bind_run, (execute_answers _ _ fs) by done. reflexivity.
Qed.

(** X7: the insert of the estimates and the update of the story are two
    requests.  When the store answers the reading of the participants and
    the insert, and fails the update, a round that reaches consensus on [v]
    leaves the estimates saved and the stories as they were; the last thing
    on the screen is the error of the update. *)
Theorem insert_without_update (story_row : story) (estimates : list (string * raw))
    (w : world) (v : Q) (fs : list bool) :
  let nums := numeric_estimates estimates in
  let rows := matched_rows (session_participants w) (current_session_id w)
                           (s_id story_row) estimates (now w) in
  faults w = false :: false :: true :: fs ->
  (2 <= length nums)%nat ->
  length (py_set (map snd nums)) = 1%nat ->
  head (map snd nums) = Some v ->
  rows <> [] ->
  exists w',
    analyze_estimates story_row estimates w = (Ok (Consensus v), w') /\
    tbl_estimates w' = tbl_estimates w ++ rows /\
    tbl_user_stories w' = tbl_user_stories w /\
    last (screen w') = Some (st_error [Lit "Error actualizando historia: "; Exn StoreError]) /\
    faults w' = fs.
Proof.
  intros nums rows Hf Hlen Hset Hhead Hrows. unfold analyze_estimates.
  rewrite prelude_run. fold nums.
  destruct (Nat.ltb_spec 1 (length nums)); [|lia].
  destruct (py_min_nonempty _ (values_nonempty _ Hlen)) as [lo Hmin].
  destruct (py_max_nonempty _ (values_nonempty _ Hlen)) as [hi Hmax].
  fold nums in Hmin, Hmax.
  rewrite Hmin, Hmax. do 6 step. rewrite Hset.
  change (1 =? 1)%nat with true. cbv iota.
  rewrite Hhead. do 2 step. rewrite !draw_draw. rewrite bind_run.
  rewrite (save_estimates_answers _ _ _ (true :: fs)) by done.
  change (session_participants (draw _ w)) with (session_participants w).
  change (current_session_id (draw _ w)) with (current_session_id w).
  change (now (draw _ w)) with (now w).
  fold rows. destruct rows as [|r0 rows0] eqn:E; [done|].
  cbv beta iota. rewrite bind_run. unfold try_except.
  rewrite bind_run, of_option_Some. cbv beta iota.
  rewrite bind_run. unfold datetime_now at 1. cbv beta iota.
  rewrite bind_run, (execute_fails _ _ fs) by done. cbv beta iota.
  rewrite st_run. cbv beta iota. rewrite ret_run.
  eexists. split; [reflexivity|]. simpl.
  split; [done|]. split; [done|]. split; [|done].
  by rewrite last_snoc.
Qed.

End PartialCommit.

Lemma insert_without_update_witness :
  faults (set_faults [false; false; true] demo_world) = [false; false; true] /\
  (2 <= length (numeric_estimates [("A", RInt 5); ("B", RInt 5)]))%nat /\
  exists w',
    analyze_estimates demo_story [("A", RInt 5); ("B", RInt 5)]
      (set_faults [false; false; true] demo_world) = (Ok (Consensus 5), w') /\
    tbl_estimates w' = [Estimate 1 7 10 "5" 100; Estimate 1 7 11 "5" 101] /\
    tbl_user_stories w' = [demo_story] /\
    last (screen w') = Some (st_error [Lit "Error actualizando historia: "; Exn StoreError]) /\
    faults w' = [].
Proof.
  split; [reflexivity|]. split; [vm_compute; lia|].
  apply (insert_without_update demo_story [("A", RInt 5); ("B", RInt 5)]
           (set_faults [false; false; true] demo_world) 5 []).
  - reflexivity.
  - vm_compute. lia.
  - vm_compute. reflexivity.
  - vm_compute. reflexivity.
  - vm_compute. discriminate.
Defined.

(** ** The median *)

(** X8: [Series.median()] of a non-empty series is a number that splits the
    series: at least half of the values are at most the median, and at
    least half are at least the median. *)
Theorem median_splits (values : list Q) :
  values <> [] ->
  exists m,
    median values = Some m /\
    (length values <= 2 * length (List.filter (fun x => Qle_bool x m) values))%nat /\
    (length values <= 2 * length (List.filter (fun x => Qle_bool m x) values))%nat.
Proof. apply median_of_values. Qed.

Lemma median_splits_witness :
  [5; 8; 3; 13]%Q <> [] /\
  exists m,
    median [5; 8; 3; 13]%Q = Some m /\
    (length [5; 8; 3; 13]%Q <=
       2 * length (List.filter (fun x => Qle_bool x m) [5; 8; 3; 13]%Q))%nat /\
    (length [5; 8; 3; 13]%Q <=
       2 * length (List.filter (fun x => Qle_bool m x) [5; 8; 3; 13]%Q))%nat.
Proof. split; [discriminate|]. apply (median_splits [5; 8; 3; 13]%Q). discriminate. Defined.

(** ** The average of each participant *)

Section ParticipantStats.
Context `{PyRuntime}.





End ParticipantStats.


(** ** Reading the estimates back *)

Lemma for_each_collect {A B} (l : list A) (acc : list B) (body : list B -> A -> M (list B))
    (g : A -> B) (w : world) :
  (forall acc x, body acc x w = (Ok (acc ++ [g x]), w)) ->
  for_each l acc body w = (Ok (acc ++ map g l), w).
Proof.
  intros Hbody. revert acc. induction l as [|x l IH]; intros acc; simpl.
  - by rewrite app_nil_r.
  - rewrite bind_run, Hbody, IH. by rewrite <- app_assoc.
Qed.

(** With a store that answers, the frame has one row for each estimate of
    the session, in the order of the table, and reading changes nothing. *)
Lemma get_estimates_df_healthy (w : world) :
  faults w = [] ->
  get_estimates_df (current_session_id w) w =
    (Ok (map (estimate_info_of w) (session_estimates w)), w).
Proof.
  intros Hf. unfold get_estimates_df, try_except.
  rewrite bind_run, execute_healthy by done.
  change (select_estimates (current_session_id w) w) with (session_estimates w, w).
  cbv beta iota. change ((session_estimates w, w).1) with (session_estimates w).
  change ((session_estimates w, w).2) with w.
  destruct (session_estimates w) as [|e es]; [done|].
  rewrite (for_each_collect _ _ _ (estimate_info_of w)); [done|].
  intros acc x. rewrite bind_run, execute_healthy by done. cbv beta iota.
  rewrite bind_run, execute_healthy by done. reflexivity.
Qed.

Lemma filter_unique_id (tbl : list participant) (p : participant) :
  NoDup (map p_id tbl) -> In p tbl ->
  List.filter (fun q => Z.eqb (p_id q) (p_id p)) tbl = [p].
Proof.
  induction tbl as [|q tbl IH]; intros Hnd Hin; [done|].
  apply NoDup_cons in Hnd as [Hq Hnd]. simpl.
  assert (forall x, In x tbl -> p_id x = p_id q -> False) as Hfresh.
  { intros x Hx Hid. apply Hq. rewrite <- Hid. apply list_elem_of_In, in_map, Hx. }
  destruct Hin as [->|Hin].
  - rewrite Z.eqb_refl. f_equal.
    clear IH Hnd Hq. induction tbl as [|x tbl IH]; simpl; [done|].
    destruct (Z.eqb_spec (p_id x) (p_id p)) as [Hid|_].
    + destruct (Hfresh x); [by left | done].
    + apply IH. intros y Hy. apply Hfresh. by right.
  - destruct (Z.eqb_spec (p_id q) (p_id p)) as [Hid|_].
    + destruct (Hfresh p); done.
    + by apply IH.
Qed.

Lemma find_participant_Some (ps : list participant) (name : string) (p : participant) :
  find_participant ps name = Some p ->
  In p ps /\ p_name p = name /\ known_name ps name = true.
Proof.
  unfold find_participant, known_name. intros Hfind.
  assert (In p (List.filter (fun p => String.eqb name (p_name p)) ps)) as Hin.
  { destruct (List.filter _ ps); [done|]. injection Hfind as ->. by left. }
  apply filter_In in Hin as [Hin Hname]. apply String.eqb_eq in Hname as ->.
  split; [done|]. split; [done|].
  apply existsb_exists. exists (p_name p). split; [by apply in_map | apply String.eqb_refl].
Qed.

Lemma find_participant_None (ps : list participant) (name : string) :
  find_participant ps name = None -> known_name ps name = false.
Proof.
  unfold find_participant, known_name. induction ps as [|p ps IH]; simpl; [done|].
  destruct (String.eqb name (p_name p)); [done|]. apply IH.
Qed.

Lemma estimate_info_of_saved (rows : list estimate) (w : world) (e : estimate) :
  estimate_info_of (saved rows w) e = estimate_info_of w e.
Proof. by destruct rows. Qed.

Lemma session_estimates_saved (rows : list estimate) (w : world) :
  Forall (fun r => e_session_id r = current_session_id w) rows ->
  session_estimates (saved rows w) = session_estimates w ++ rows.
Proof.
  intros Hall. destruct rows as [|r rows]; [by rewrite app_nil_r|].
  unfold session_estimates. simpl tbl_estimates. simpl current_session_id.
  rewrite List.filter_app. f_equal.
  induction Hall as [|x l Hx _ IH]; simpl; [done|].
  by rewrite Hx, Z.eqb_refl, IH.
Qed.

Section ReadBack.
Context `{PyRuntime}.

Lemma matched_rows_read_back (w : world) (id : Z) (batch : list (string * raw)) (t : Z) :
  NoDup (map p_id (tbl_participants w)) ->
  map (fun i => (i_participant_name i, i_estimate i))
      (map (estimate_info_of w)
           (matched_rows (session_participants w) (current_session_id w) id batch t)) =
  map (fun entry => (fst entry, py_str (snd entry)))
      (List.filter (fun entry => known_name (session_participants w) (fst entry)) batch).
Proof.
  intros Hnd. revert t. induction batch as [|[name card] batch IH]; intros t; simpl; [done|].
  destruct (find_participant (session_participants w) name) as [p|] eqn:Hfind.
  - apply find_participant_Some in Hfind as (Hin & Hname & ->). simpl.
    rewrite IH. f_equal. unfold estimate_info_of. simpl.
    rewrite filter_unique_id; [by rewrite Hname | done |].
    unfold session_participants in Hin. by apply filter_In in Hin as [? _].
  - apply find_participant_None in Hfind as ->. apply IH.
Qed.

(** X10: what is saved is read back.  With a store that answers, participant
    ids that are unique and a session that has participants, the frame
    that [get_estimates_df] builds after [save_estimates] is the frame it
    built before, followed by one row for each entry of the batch whose name
    is that of a participant of the session, in the order of the batch,
    with that name and the text of the card; and [save_estimates] says True
    exactly when there is such a row. *)
Theorem saved_estimates_are_read_back (id : Z) (batch : list (string * raw)) (w : world) :
  faults w = [] ->
  NoDup (map p_id (tbl_participants w)) ->
  session_participants w <> [] ->
  exists b w1 before after,
    save_estimates id batch w = (Ok b, w1) /\
    fst (get_estimates_df (current_session_id w) w) = Ok before /\
    fst (get_estimates_df (current_session_id w1) w1) = Ok (before ++ after) /\
    map (fun i => (i_participant_name i, i_estimate i)) after =
      map (fun entry => (fst entry, py_str (snd entry)))
          (List.filter (fun entry => known_name (session_participants w) (fst entry)) batch) /\
    b = negb (Nat.eqb (length after) 0).
Proof.
  intros Hf Hnd Hps.
  set (rows := matched_rows (session_participants w) (current_session_id w) id batch (now w)).
  exists (negb (Nat.eqb (length rows) 0)), (saved rows w),
    (map (estimate_info_of w) (session_estimates w)), (map (estimate_info_of w) rows).
  split; [by apply save_estimates_healthy; auto|].
  split; [by rewrite get_estimates_df_healthy|].
  split; [|split; [by apply matched_rows_read_back | by rewrite length_map]].
  assert (faults (saved rows w) = []) as Hf1 by (unfold saved; by destruct rows).
  rewrite get_estimates_df_healthy by done. simpl. f_equal.
  destruct (matched_rows_spec (session_participants w) (current_session_id w) id batch (now w))
    as [_ Hall]. fold rows in Hall.
  rewrite session_estimates_saved, map_app.
  - f_equal; apply map_ext; intros e; by rewrite estimate_info_of_saved.
  - eapply List.Forall_impl; [|exact Hall]. by intros e [? _].
Qed.

End ReadBack.

Lemma saved_estimates_are_read_back_witness :
  faults demo_world = [] /\
  NoDup (map p_id (tbl_participants demo_world)) /\
  session_participants demo_world <> [] /\
  exists b w1 before after,
    save_estimates 7 [("A", RInt 5); ("Z", RInt 3); ("B", RStr "?")] demo_world = (Ok b, w1) /\
    fst (get_estimates_df (current_session_id demo_world) demo_world) = Ok before /\
    fst (get_estimates_df (current_session_id w1) w1) = Ok (before ++ after) /\
    map (fun i => (i_participant_name i, i_estimate i)) after = [("A", "5"); ("B", "?")] /\
    b = negb (Nat.eqb (length after) 0).
Proof.
  assert (NoDup (map p_id (tbl_participants demo_world))) as Hnd.
  { apply NoDup_ListNoDup. repeat constructor; simpl; intuition discriminate. }
  split; [reflexivity|]. split; [exact Hnd|]. split; [discriminate|].
  apply (saved_estimates_are_read_back 7 [("A", RInt 5); ("Z", RInt 3); ("B", RStr "?")]
           demo_world eq_refl Hnd).
  discriminate.
Defined.

Lemma estimates_loop (l : list estimate) (acc : list estimate_info) (w0 w : world) :
  same_tables w0 w ->
  wp (for_each l acc
        (fun estimates_data estimate =>
           participant_result ← execute (select_participant (e_participant_id estimate));
           let participant_name :=
             match participant_result with p :: _ => p_name p | [] => "Desconocido" end in
           let participant_role :=
             match participant_result with p :: _ => p_role p | [] => "N/A" end in
           story_result ← execute (select_story (e_story_id estimate));
           let story_id :=
             match story_result with s :: _ => s_story_id s | [] => "N/A" end in
           let story_title :=
             match story_result with s :: _ => s_title s | [] => "N/A" end in
           mret (estimates_data ++
                   [EstimateInfo story_id story_title participant_name participant_role
                                 (e_estimate estimate) (e_estimated_at estimate)])))
     (fun r w1 => same_tables w0 w1 /\
                  (r = Ok (acc ++ map (estimate_info_of w0) l) \/ exists e, r = Raised e)) w.
Proof.
  revert acc w. induction l as [|x l IH]; intros acc w Hw; simpl.
  - apply wp_ret. rewrite app_nil_r. auto.
  - apply wp_bind, wp_bind, wp_execute; [intros fs; split; [done | by eauto]|].
    intros fs. apply wp_bind, wp_execute; [intros fs'; split; [done | by eauto]|].
    intros fs'. apply wp_ret. simpl.
    eapply wp_mono; [|apply (IH _ (set_faults fs' (set_faults fs w))); done].
    intros r w1 [Hw1 Hr]. split; [done|].
    destruct Hr as [->|?]; [left|by right].
    rewrite <- app_assoc. do 3 f_equal. unfold estimate_info_of.
    destruct Hw as (_ & -> & -> & _). done.
Qed.

(** X11: whatever the store does, [get_estimates_df] returns a frame, and the
    frame is all or nothing: either it has one row for each estimate of the
    session, or, when any of the requests failed, it is empty; the rows
    built before the failure are not shown.  The tables are left as they
    were. *)
Theorem get_estimates_df_all_or_nothing (session_id : Z) (w : world) :
  exists df,
    fst (get_estimates_df session_id w) = Ok df /\
    same_tables w (snd (get_estimates_df session_id w)) /\
    (df = [] \/
     df = map (estimate_info_of w)
              (List.filter (fun e => Z.eqb (e_session_id e) session_id) (tbl_estimates w))).
Proof.
  set (full := map (estimate_info_of w)
                   (List.filter (fun e => Z.eqb (e_session_id e) session_id) (tbl_estimates w))).
  set (Q := fun (r : outcome (list estimate_info)) (w1 : world) =>
              exists df, r = Ok df /\ same_tables w w1 /\ (df = [] \/ df = full)).
  change (wp (get_estimates_df session_id) Q w).
  unfold get_estimates_df. apply wp_try_except, wp_bind, wp_execute.
  - intros fs. apply wp_bind, wp_st, wp_ret. exists []. split; [done|]. split; [by repeat split | by left].
  - intros fs. simpl.
    destruct (List.filter _ (tbl_estimates w)) as [|e es] eqn:E.
    + apply wp_ret. exists []. split; [done|]. split; [by repeat split | by left].
    + eapply wp_mono; [|apply (estimates_loop _ _ w); done].
      intros r w1 [Hw1 [->|[e' ->]]].
      * exists full. split; [done | by auto].
      * apply wp_bind, wp_st, wp_ret. exists []. by auto.
Qed.

(** ** Facts about registering *)

Section RegistrationFacts.
Context `{StoreIds}.

Lemma add_participant_keeps (name role : string) (email : option string) (w0 w : world) :
  same_tables w0 w ->
  wp (add_participant name role email)
     (fun r w1 =>
        (r = Ok false /\ same_tables w0 w1) \/
        (r = Ok true /\ exists p,
           joined p w0 w1 /\ p_session_id p = current_session_id w0 /\ p_name p = name /\
           p_role p = role /\ p_email p = email /\ p_joined_at p = now w)) w.
Proof.
  intros Hw. unfold add_participant.
  apply wp_try_except, wp_bind, wp_session_state, wp_bind, wp_datetime_now, wp_bind, wp_execute.
  - intros fs. apply wp_bind, wp_st, wp_ret. by left.
  - intros fs. apply wp_ret. right. split; [done|]. eexists.
    destruct Hw as (Hs & Hp & Hu & He).
    split; [repeat split; simpl; try done; by rewrite Hp|].
    by repeat split.
Qed.

Lemma add_story_keeps (story_id title description criteria priority : string) (w0 w : world) :
  same_tables w0 w ->
  wp (add_story story_id title description criteria priority)
     (fun r w1 =>
        (r = Ok false /\ same_tables w0 w1) \/
        (r = Ok true /\ exists s,
           registered s w0 w1 /\ s_session_id s = current_session_id w0 /\
           s_story_id s = story_id /\ s_title s = title /\ s_description s = description /\
           s_acceptance_criteria s = criteria /\ s_priority s = priority /\
           s_status s = "pending" /\ s_final_estimate s = None /\
           s_last_estimated_at s = None /\ s_created_at s = now w)) w.
Proof.
  intros Hw. unfold add_story.
  apply wp_try_except, wp_bind, wp_session_state, wp_bind, wp_datetime_now, wp_bind, wp_execute.
  - intros fs. apply wp_bind, wp_st, wp_ret. by left.
  - intros fs. apply wp_ret. right. split; [done|]. eexists.
    destruct Hw as (Hs & Hp & Hu & He).
    split; [repeat split; simpl; try done; by rewrite Hu|].
    by repeat split.
Qed.

(** X12: whatever the store does, [add_participant] returns a boolean and
    tells the truth: True means that the table of participants gained one
    row, of the current session, with the name, the role and the email
    given and the time of the call; False means that the tables are as they
    were.  Stories and estimates are never touched. *)
Theorem add_participant_tells_the_truth (name role : string) (email : option string)
    (w : world) :
  let r := fst (add_participant name role email w) in
  let w' := snd (add_participant name role email w) in
  (r = Ok false /\ same_tables w w') \/
  (r = Ok true /\ exists p,
     joined p w w' /\ p_session_id p = current_session_id w /\ p_name p = name /\
     p_role p = role /\ p_email p = email /\ p_joined_at p = now w).
Proof. apply (add_participant_keeps name role email w w), same_tables_refl. Qed.

(** X13: whatever the store does, [add_story] returns a boolean and tells
    the truth: True means that the table of stories gained one row, of the
    current session, with the fields given, pending and without a final
    estimate; False means that the tables are as they were. *)
Theorem add_story_tells_the_truth (story_id title description criteria priority : string)
    (w : world) :
  let r := fst (add_story story_id title description criteria priority w) in
  let w' := snd (add_story story_id title description criteria priority w) in
  (r = Ok false /\ same_tables w w') \/
  (r = Ok true /\ exists s,
     registered s w w' /\ s_session_id s = current_session_id w /\
     s_story_id s = story_id /\ s_title s = title /\ s_description s = description /\
     s_acceptance_criteria s = criteria /\ s_priority s = priority /\
     s_status s = "pending" /\ s_final_estimate s = None /\
     s_last_estimated_at s = None /\ s_created_at s = now w).
Proof.
  apply (add_story_keeps story_id title description criteria priority w w), same_tables_refl.
Qed.

End RegistrationFacts.

Lemma selectbox_In {A} (options : list A) (place : nat) :
  options <> [] -> exists x, selectbox options place = Some x /\ In x options.
Proof.
  intros Hne. unfold selectbox. destruct (options !! place) as [x|] eqn:Hx.
  - exists x. split; [done|]. by eapply list_elem_of_In, list_elem_of_lookup_2.
  - destruct options as [|x l]; [done|]. exists x. split; [done | by left].
Qed.

Lemma get_stories_df_healthy (w : world) :
  faults w = [] ->
  get_stories_df (current_session_id w) w = (Ok (session_stories w), w).
Proof.
  intros Hf. unfold get_stories_df, try_except.
  rewrite bind_run, execute_healthy by done. reflexivity.
Qed.

Section FormFacts.
Context `{StoreIds}.

(** X14: the form of the participants tab never fails, whatever was typed
    and whatever the store does, and every participant it adds has a name
    that is not empty, a role of the list, and an email that is absent
    rather than empty; nothing is added unless the button was pressed, and
    after an addition the script is run again. *)
Theorem participants_form_validates (entry : participant_entry) (w : world) :
  let r := fst (render_participants_form entry w) in
  let w' := snd (render_participants_form entry w) in
  r = Ok tt /\
  (same_tables w w' \/
   exists p,
     joined p w w' /\ pe_submit entry = true /\
     p_name p = pe_name entry /\ p_name p <> "" /\ In (p_role p) roles /\
     (p_email p = None /\ pe_email entry = "" \/
      p_email p = Some (pe_email entry) /\ pe_email entry <> "") /\
     last (screen w') = Some st_rerun).
Proof.
  set (Q := fun (r : outcome unit) (w' : world) =>
    r = Ok tt /\
    (same_tables w w' \/
     exists p,
       joined p w w' /\ pe_submit entry = true /\
       p_name p = pe_name entry /\ p_name p <> "" /\ In (p_role p) roles /\
       (p_email p = None /\ pe_email entry = "" \/
        p_email p = Some (pe_email entry) /\ pe_email entry <> "") /\
       last (screen w') = Some st_rerun)).
  change (wp (render_participants_form entry) Q w).
  assert (forall w1, same_tables w w1 -> Q (Ok tt) w1) as Hsame.
  { intros w1 Hw1. split; [done | by left]. }
  unfold render_participants_form. apply wp_bind, wp_st.
  destruct (selectbox_In roles (pe_role entry)) as (role & -> & Hrole); [done|].
  apply wp_bind, wp_ret.
  destruct (pe_submit entry) eqn:Hsubmit; [|by apply wp_ret, Hsame].
  destruct (String.eqb_spec (pe_name entry) "") as [Hname|Hname]; simpl negb; cbv iota.
  { by apply wp_st, Hsame. }
  apply wp_bind.
  eapply wp_mono; [|apply (add_participant_keeps _ _ _ w); done].
  intros r w1 [[-> Hw1]|[-> (p & Hp & _ & Hpn & Hpr & Hpe & _)]].
  - by apply wp_st, Hsame.
  - apply wp_bind, wp_st, wp_st. split; [done|]. right. exists p.
    split; [done|]. split; [done|]. split; [done|]. split; [by rewrite Hpn|].
    split; [by rewrite Hpr|]. split.
    + rewrite Hpe. destruct (String.eqb_spec (pe_email entry) ""); auto.
    + exact (last_snoc _ _).
Qed.

(** X15: the form of the stories tab never fails, and every story it adds
    has a code and a title that are not empty and a priority of the list,
    is pending and has no final estimate. *)
Theorem stories_form_validates (entry : story_entry) (w : world) :
  let r := fst (render_stories_form entry w) in
  let w' := snd (render_stories_form entry w) in
  r = Ok tt /\
  (same_tables w w' \/
   exists s,
     registered s w w' /\ se_submit entry = true /\
     s_story_id s = se_story_id entry /\ s_story_id s <> "" /\
     s_title s = se_title entry /\ s_title s <> "" /\
     In (s_priority s) priorities /\
     s_status s = "pending" /\ s_final_estimate s = None /\
     last (screen w') = Some st_rerun).
Proof.
  set (Q := fun (r : outcome unit) (w' : world) =>
    r = Ok tt /\
    (same_tables w w' \/
     exists s,
       registered s w w' /\ se_submit entry = true /\
       s_story_id s = se_story_id entry /\ s_story_id s <> "" /\
       s_title s = se_title entry /\ s_title s <> "" /\
       In (s_priority s) priorities /\
       s_status s = "pending" /\ s_final_estimate s = None /\
       last (screen w') = Some st_rerun)).
  change (wp (render_stories_form entry) Q w).
  assert (forall w1, same_tables w w1 -> Q (Ok tt) w1) as Hsame.
  { intros w1 Hw1. split; [done | by left]. }
  unfold render_stories_form. apply wp_bind, wp_st.
  destruct (selectbox_In priorities (se_priority entry)) as (priority & -> & Hpri); [done|].
  apply wp_bind, wp_ret.
  destruct (se_submit entry) eqn:Hsubmit; [|by apply wp_ret, Hsame].
  destruct (String.eqb_spec (se_story_id entry) "") as [Hcode|Hcode]; simpl negb; cbv iota.
  { by apply wp_st, Hsame. }
  destruct (String.eqb_spec (se_title entry) "") as [Htitle|Htitle]; simpl negb; cbv iota.
  { by apply wp_st, Hsame. }
  simpl andb. cbv iota. apply wp_bind.
  eapply wp_mono; [|apply (add_story_keeps _ _ _ _ _ w); done].
  intros r w1 [[-> Hw1]|[-> (s & Hs & _ & Hc & Ht & _ & _ & Hp & Hst & Hfe & _)]].
  - by apply wp_st, Hsame.
  - apply wp_bind, wp_st, wp_st. split; [done|]. right. exists s.
    split; [done|]. split; [done|]. split; [done|]. split; [by rewrite Hc|].
    split; [done|]. split; [by rewrite Ht|]. split; [by rewrite Hp|].
    split; [done|]. split; [done|].
    exact (last_snoc _ _).
Qed.

Context `{PyRuntime}.

(** X16: with a store that answers, a participant that was added is listed
    at once: [add_participant] says True, [get_participants_df] then
    returns the participants the session had, followed by the new one, and
    [save_estimates] saves a batch that bears the new name. *)
Theorem added_participant_is_listed (name role : string) (email : option string)
    (w : world) :
  faults w = [] ->
  exists p w',
    add_participant name role email w = (Ok true, w') /\
    p_name p = name /\ p_role p = role /\ p_email p = email /\
    get_participants_df (current_session_id w') w' =
      (Ok (session_participants w ++ [p]), w') /\
    forall id batch card,
      In (name, card) batch -> fst (save_estimates id batch w') = Ok true.
Proof.
  intros Hf.
  set (p := Participant (new_participant_id (tick 1 w)) (current_session_id w) name role email
                        (now w)).
  set (w' := set_participants (tbl_participants w ++ [p]) (tick 1 w)).
  assert (session_participants w' = session_participants w ++ [p]) as Hps.
  { unfold session_participants. simpl. rewrite List.filter_app. simpl.
    by rewrite Z.eqb_refl. }
  exists p, w'. split; [|split; [done|split; [done|split; [done|split]]]].
  - unfold add_participant, try_except.
    rewrite bind_run, session_state_run. cbv beta iota.
    rewrite bind_run. unfold datetime_now at 1. cbv beta iota.
    rewrite bind_run, execute_healthy by done. cbv beta iota.
    rewrite ret_run. reflexivity.
  - rewrite get_participants_df_healthy by done. by rewrite Hps.
  - intros id batch card Hin.
    rewrite save_estimates_healthy; [|done|].
    2:{ left. rewrite Hps. by destruct (session_participants w). }
    simpl. destruct (matched_rows _ _ _ _ _) eqn:E; [|done].
    exfalso. revert E. apply matched_rows_nonempty.
    exists name, card, p. split; [done|]. split; [|done].
    rewrite Hps. apply in_app_iff. right. by left.
Qed.

(** X17: with a store that answers, a story that was added is listed at
    once, pending: [add_story] says True and [get_stories_df] then returns
    the stories the session had, followed by the new one. *)
Theorem added_story_is_pending (story_id title description criteria priority : string)
    (w : world) :
  faults w = [] ->
  exists s w',
    add_story story_id title description criteria priority w = (Ok true, w') /\
    s_story_id s = story_id /\ s_title s = title /\ s_status s = "pending" /\
    s_final_estimate s = None /\
    get_stories_df (current_session_id w') w' = (Ok (session_stories w ++ [s]), w').
Proof.
  intros Hf.
  set (s := Story (new_story_id (tick 1 w)) (current_session_id w) story_id title description
                  criteria priority "pending" (now w) None None).
  set (w' := set_user_stories (tbl_user_stories w ++ [s]) (tick 1 w)).
  exists s, w'. split; [|split; [done|split; [done|split; [done|split; [done|]]]]].
  - unfold add_story, try_except.
    rewrite bind_run, session_state_run. cbv beta iota.
    rewrite bind_run. unfold datetime_now at 1. cbv beta iota.
    rewrite bind_run, execute_healthy by done. cbv beta iota.
    rewrite ret_run. reflexivity.
  - rewrite get_stories_df_healthy by done. f_equal. f_equal.
    unfold session_stories. simpl. rewrite List.filter_app. simpl.
    by rewrite Z.eqb_refl.
Qed.

End FormFacts.

Lemma added_participant_is_listed_witness :
  faults demo_world = [] /\
  exists p w',
    @add_participant serial_ids "D" "QA" None demo_world = (Ok true, w') /\
    p_name p = "D" /\ p_role p = "QA" /\ p_email p = None /\
    get_participants_df (current_session_id w') w' =
      (Ok (session_participants demo_world ++ [p]), w') /\
    forall id batch card,
      In ("D", card) batch -> fst (save_estimates id batch w') = Ok true.
Proof.
  split; [reflexivity|].
  apply (@added_participant_is_listed serial_ids decimal_runtime "D" "QA" None demo_world).
  reflexivity.
Defined.

Lemma added_story_is_pending_witness :
  faults demo_world = [] /\
  exists s w',
    @add_story serial_ids "US-002" "Logout" "" "" "Low" demo_world = (Ok true, w') /\
    s_story_id s = "US-002" /\ s_title s = "Logout" /\ s_status s = "pending" /\
    s_final_estimate s = None /\
    get_stories_df (current_session_id w') w' = (Ok (session_stories demo_world ++ [s]), w').
Proof.
  split; [reflexivity|].
  apply (@added_story_is_pending serial_ids "US-002" "Logout" "" "" "Low" demo_world).
  reflexivity.
Defined.

(** ** Facts about the estimation tab *)

Lemma get_stories_df_keeps (sid : Z) (w0 w : world) :
  same_tables w0 w ->
  wp (get_stories_df sid)
     (fun r w1 => exists df, r = Ok df /\ same_tables w0 w1 /\
                  (df = [] \/ df = List.filter (fun s => Z.eqb (s_session_id s) sid)
                                               (tbl_user_stories w0))) w.
Proof.
  intros Hw. unfold get_stories_df. apply wp_try_except, wp_bind, wp_execute.
  - intros fs. apply wp_ret. exists []. auto using same_tables_faults.
  - intros fs. apply wp_ret. eexists. split; [done|]. split; [done|].
    right. simpl. by destruct Hw as (_ & _ & -> & _).
Qed.

Lemma selectbox_cards (place : nat) :
  exists c, selectbox all_cards place = Some c /\ In c all_cards.
Proof. by apply selectbox_In. Qed.

(** The story of the round is a story of the session, and its code is that
    of a pending story. *)
Lemma chosen_story_spec (g : gesture) (w : world) (story_row : story) :
  chosen_story g w = Some story_row ->
  In story_row (session_stories w) /\
  exists s, In s (pending_stories w) /\ s_story_id s = s_story_id story_row.
Proof.
  unfold chosen_story.
  destruct (selectbox _ _) as [code|] eqn:Hsel; [|done].
  destruct (String.eqb code ""); [done|]. intros Hhead.
  assert (In story_row
            (List.filter (fun s => String.eqb (s_story_id s) code) (session_stories w)))
    as Hin.
  { destruct (List.filter _ _); [done|]. injection Hhead as ->. by left. }
  apply filter_In in Hin as [Hin Hcode]. apply String.eqb_eq in Hcode.
  split; [done|].
  assert (In code (map s_story_id (pending_stories w))) as Hopt.
  { unfold selectbox in Hsel.
    destruct (_ !! _) as [x|] eqn:Hx.
    - injection Hsel as ->. by eapply list_elem_of_In, list_elem_of_lookup_2.
    - destruct (map _ _); [done|]. injection Hsel as ->. by left. }
  apply in_map_iff in Hopt as (s & Hs & Hin'). exists s. split; [done | congruence].
Qed.

(** A pending story is found by its code among the stories: [iloc[0]] does
    not fail. *)
Lemma pending_code_found (stories : list story) (place : nat) (code : string) :
  selectbox
    (map s_story_id (List.filter (fun s => String.eqb (s_status s) "pending") stories))
    place = Some code ->
  exists story_row,
    head (List.filter (fun s => String.eqb (s_story_id s) code) stories) = Some story_row.
Proof.
  intros Hsel.
  assert (In code (map s_story_id
                       (List.filter (fun s => String.eqb (s_status s) "pending") stories)))
    as Hopt.
  { unfold selectbox in Hsel.
    destruct (_ !! _) as [x|] eqn:Hx.
    - injection Hsel as ->. by eapply list_elem_of_In, list_elem_of_lookup_2.
    - destruct (map _ _); [done|]. injection Hsel as ->. by left. }
  apply in_map_iff in Hopt as (s & Hs & Hin). apply filter_In in Hin as [Hin _].
  assert (In s (List.filter (fun s => String.eqb (s_story_id s) code) stories)) as Hs'.
  { apply filter_In. split; [done|]. by apply String.eqb_eq. }
  destruct (List.filter (fun s => String.eqb (s_story_id s) code) stories) as [|x l];
    [done|]. by exists x.
Qed.

Section EstimationTabFacts.
Context `{PyRuntime}.

Lemma estimation_tab_keeps (g : gesture) (w : world) :
  wp (render_estimation_tab g)
     (fun r w' =>
        r = Ok tt /\
        (same_tables w w' \/
         exists story_row verdict,
           g_button g = true /\ chosen_story g w = Some story_row /\
           footprint (s_id story_row) w verdict w')) w.
Proof.
  set (Q := fun (r : outcome unit) (w' : world) =>
        r = Ok tt /\
        (same_tables w w' \/
         exists story_row verdict,
           g_button g = true /\ chosen_story g w = Some story_row /\
           footprint (s_id story_row) w verdict w')).
  assert (forall w1, same_tables w w1 -> Q (Ok tt) w1) as Hsame.
  { intros w1 Hw1. split; [done | by left]. }
  unfold render_estimation_tab.
  apply wp_bind, wp_st, wp_bind, wp_session_state, wp_bind.
  eapply wp_mono; [|apply (get_stories_df_keeps _ w); done].
  intros r w1 (stories_df & -> & Hw1 & Hstories).
  apply wp_bind, wp_session_state, wp_bind.
  eapply wp_mono; [|apply (get_participants_df_keeps _ w); done].
  intros r w2 (participants_df & -> & Hw2 & _).
  destruct Hstories as [->|Hstories]; [by apply wp_st, Hsame|].
  change (current_session_id (draw _ w)) with (current_session_id w) in Hstories.
  fold (session_stories w) in Hstories.
  destruct stories_df as [|s0 stories_df]; [by apply wp_st, Hsame|].
  destruct participants_df as [|p0 participants_df]; [by apply wp_st, Hsame|].
  apply wp_bind, wp_ret. cbv zeta. rewrite map_map, rows_where_filter.
  rewrite Hstories. fold (pending_stories w).
  destruct (pending_stories w) as [|ps0 pss] eqn:Hpending; [by apply wp_st, Hsame|].
  apply wp_bind, wp_st, wp_bind, wp_ret.
  destruct (selectbox _ _) as [code|] eqn:Hsel; [|by apply wp_ret, Hsame].
  destruct (String.eqb code "") eqn:Hcode; simpl negb; cbv iota; [by apply wp_ret, Hsame|].
  rewrite <- Hstories at 1. apply wp_bind, wp_ret. rewrite Hstories.
  rewrite map_map, rows_where_filter.
  assert (chosen_story g w =
          head (List.filter (fun s => String.eqb (s_story_id s) code) (session_stories w)))
    as Hchosen.
  { unfold chosen_story. by rewrite Hpending, Hsel, Hcode. }
  destruct (pending_code_found (session_stories w) (g_story g) code) as [story_row Hrow].
  { unfold pending_stories in Hpending. by rewrite Hpending. }
  rewrite Hrow in *. apply wp_bind, wp_ret.
  apply wp_bind, wp_st, wp_bind, wp_st, wp_bind, wp_st, wp_bind.
  apply (wp_for_each (fun _ w3 => same_tables w w3)); [done| |].
  { intros [] card w3 _ Hw3. by apply wp_st. }
  intros [] w3 Hw3. apply wp_bind, wp_st, wp_bind.
  apply (wp_for_each (fun _ w4 => same_tables w w4)); [done| |].
  { intros acc p w4 _ Hw4. apply wp_bind, wp_st.
    destruct (selectbox_cards (g_card g (p_id p))) as (c & -> & _).
    by apply wp_bind, wp_ret, wp_ret. }
  intros estimates w4 Hw4.
  destruct (g_button g) eqn:Hbutton; [|by apply wp_ret, Hsame].
  apply wp_bind.
  eapply wp_mono; [|apply (analyze_estimates_keeps story_row estimates w); done].
  intros o w5 (verdict & -> & Hfoot). apply wp_ret.
  split; [done|]. right. by exists story_row, verdict.
Qed.

(** X18: the estimation tab never fails, whatever the user does and
    whatever the store does, and it touches the tables only through a
    round: either they are left as they were, or the button was pressed
    and a round was run for the first story of the session that bears the
    code chosen among the pending ones, with the footprint of a round:
    estimates of that story appended, and that story marked only on a
    consensus. *)
Theorem estimation_tab_footprint (g : gesture) (w : world) :
  let r := fst (render_estimation_tab g w) in
  let w' := snd (render_estimation_tab g w) in
  r = Ok tt /\
  (same_tables w w' \/
   exists story_row verdict,
     g_button g = true /\ chosen_story g w = Some story_row /\
     In story_row (session_stories w) /\
     footprint (s_id story_row) w verdict w').
Proof.
  destruct (estimation_tab_keeps g w) as [Hr Hw]. split; [done|].
  destruct Hw as [Hw|(story_row & verdict & Hb & Hc & Hf)]; [by left|].
  right. exists story_row, verdict. repeat split; try done.
  by apply chosen_story_spec in Hc as [? _].
Qed.

End EstimationTabFacts.

Lemma NoDup_map_inj {A B} (f : A -> B) (l : list A) (a b : A) :
  NoDup (map f l) -> In a l -> In b l -> f a = f b -> a = b.
Proof.
  induction l as [|x l IH]; intros Hnd Ha Hb Hf; [done|].
  apply NoDup_cons in Hnd as [Hx Hnd].
  destruct Ha as [->|Ha], Hb as [->|Hb]; try done.
  - destruct Hx. rewrite Hf. by apply list_elem_of_In, in_map.
  - destruct Hx. rewrite <- Hf. by apply list_elem_of_In, in_map.
  - by apply IH.
Qed.

Lemma marked_only_pending (sid : Z) (story_row : story) (v : Q) (t : Z)
    (stories : list story) :
  NoDup (map s_id stories) -> In story_row stories ->
  s_status story_row = "pending" -> s_session_id story_row = sid ->
  only_pending_marked sid stories (marked (s_id story_row) v t stories).
Proof.
  intros Hnd Hin Hst Hsid. unfold only_pending_marked, marked.
  assert (forall s, In s stories -> s_id s = s_id story_row -> s = story_row) as Huniq.
  { intros s Hs Hid. by apply (NoDup_map_inj s_id stories). }
  clear Hnd Hin. induction stories as [|s stories IH]; simpl; [constructor|].
  constructor.
  - destruct (Z.eqb_spec (s_id s) (s_id story_row)) as [Hid|_]; [|by left].
    right. rewrite (Huniq s) by (by left || done). eauto.
  - apply IH. intros s' Hs'. apply Huniq. by right.
Qed.

Lemma only_pending_marked_refl (sid : Z) (stories : list story) :
  only_pending_marked sid stories stories.
Proof. unfold only_pending_marked. induction stories; constructor; auto. Qed.

Lemma session_stories_In (w : world) (s : story) :
  In s (session_stories w) ->
  In s (tbl_user_stories w) /\ s_session_id s = current_session_id w.
Proof.
  unfold session_stories. intros [Hin Hsid%Z.eqb_eq]%filter_In. done.
Qed.

Section EstimationTabSafety.
Context `{PyRuntime}.

(** X19: the estimation tab marks pending stories only.  When the codes of
    the stories of the session are distinct and the ids of the stories are
    distinct, then whatever the user does and whatever the store does,
    every story is after the tab as it was before, or it was a pending
    story of the current session and is now estimated. *)
Theorem estimation_tab_marks_pending_only (g : gesture) (w : world) :
  NoDup (map s_story_id (session_stories w)) ->
  NoDup (map s_id (tbl_user_stories w)) ->
  only_pending_marked (current_session_id w) (tbl_user_stories w)
                      (tbl_user_stories (snd (render_estimation_tab g w))).
Proof.
  intros Hcodes Hids.
  destruct (estimation_tab_keeps g w) as [_ Hw].
  destruct Hw as [Hw|(story_row & verdict & _ & Hc & Hf)].
  { destruct Hw as (_ & _ & -> & _). apply only_pending_marked_refl. }
  destruct Hf as (rows & _ & _ & _ & _ & [->|(_ & v & t & _ & ->)]).
  { apply only_pending_marked_refl. }
  apply chosen_story_spec in Hc as (Hin & s & Hs & Hcode).
  assert (s = story_row) as ->.
  { apply (NoDup_map_inj s_story_id (session_stories w)); try done.
    unfold pending_stories in Hs. by apply filter_In in Hs as [? _]. }
  apply session_stories_In in Hin as [Hin Hsid].
  apply marked_only_pending; try done.
  unfold pending_stories in Hs. apply filter_In in Hs as [_ Hst].
  by apply String.eqb_eq.
Qed.

End EstimationTabSafety.

Lemma estimation_tab_marks_pending_only_witness :
  NoDup (map s_story_id (session_stories demo_world)) /\
  NoDup (map s_id (tbl_user_stories demo_world)) /\
  only_pending_marked (current_session_id demo_world) (tbl_user_stories demo_world)
    (tbl_user_stories
       (snd (render_estimation_tab (Gesture 0 (fun _ => 5%nat) true) demo_world))).
Proof.
  assert (NoDup (map s_story_id (session_stories demo_world))) as Hcodes.
  { apply NoDup_ListNoDup. repeat constructor; simpl; intuition discriminate. }
  assert (NoDup (map s_id (tbl_user_stories demo_world))) as Hids.
  { apply NoDup_ListNoDup. repeat constructor; simpl; intuition discriminate. }
  split; [exact Hcodes|]. split; [exact Hids|].
  apply (estimation_tab_marks_pending_only (Gesture 0 (fun _ => 5%nat) true) demo_world
           Hcodes Hids).
Defined.

(** Without the first hypothesis the tab may mark a story that is already
    estimated: the code is chosen among the pending stories but the story is
    looked up among all of them, and the first that bears the code is
    taken. *)
Lemma estimated_story_marked_again :
  let first := Story 7 1 "US-001" "Login" "" "" "High" "estimated" 0 (Some 3%Q) (Some 50%Z) in
  let second := Story 8 1 "US-001" "Login again" "" "" "High" "pending" 0 None None in
  let w := World 1 (tbl_participants demo_world) [first; second] [] [] 100 [] in
  tbl_user_stories (snd (render_estimation_tab (Gesture 0 (fun _ => 5%nat) true) w)) =
    [estimated 5 103 first; second].
Proof. vm_compute. reflexivity. Qed.

(** ** The batch of the estimation tab *)

Lemma dict_set_keys {V} (k : string) (v : V) (d : list (string * V)) :
  map fst (dict_set k v d) =
    if existsb (String.eqb k) (map fst d) then map fst d else map fst d ++ [k].
Proof.
  induction d as [|[k' v'] d IH]; simpl; [done|].
  rewrite (String.eqb_sym k k'). destruct (String.eqb k' k) eqn:E; simpl; [done|].
  rewrite IH. by destruct (existsb _ _).
Qed.

Lemma dict_set_In {V} (k : string) (v : V) (d : list (string * V)) (k' : string) (v' : V) :
  NoDup (map fst d) ->
  In (k', v') (dict_set k v d) <-> (k' = k /\ v' = v) \/ (k' <> k /\ In (k', v') d).
Proof.
  induction d as [|[k0 v0] d IH]; simpl; intros Hnd.
  - split; [intros [[= <- <-]|[]]; auto | intros [[-> ->]|[_ []]]; auto].
  - apply NoDup_cons in Hnd as [Hk0 Hnd].
    destruct (String.eqb_spec k0 k) as [->|Hne]; simpl.
    + split.
      * intros [[= <- <-]|Hin]; [auto|]. right. split; [|auto].
        intros ->. apply Hk0. apply list_elem_of_In.
        by apply (in_map fst d (k, v')).
      * intros [[-> ->]|[Hne [[= <- <-]|Hin]]]; auto. done.
    + rewrite IH by done. split.
      * intros [[= <- <-]|[[-> ->]|[Hne' Hin]]]; auto.
      * intros [[-> ->]|[Hne' [[= <- <-]|Hin]]]; auto.
Qed.

Lemma dict_set_NoDup {V} (k : string) (v : V) (d : list (string * V)) :
  NoDup (map fst d) -> NoDup (map fst (dict_set k v d)).
Proof.
  intros Hnd. rewrite dict_set_keys.
  destruct (existsb _ _) eqn:E; [done|].
  apply NoDup_app. split; [done|]. split; [|apply NoDup_singleton].
  intros x Hx ->%list_elem_of_singleton.
  assert (existsb (String.eqb k) (map fst d) = true); [|congruence].
  apply existsb_exists. exists k. split; [by apply list_elem_of_In | apply String.eqb_refl].
Qed.

Lemma tab_batch_snoc (g : gesture) (ps : list participant) (p : participant) :
  tab_batch g (ps ++ [p]) = dict_set (p_name p) (chosen_card g p) (tab_batch g ps).
Proof. unfold tab_batch. by rewrite fold_left_app. Qed.

Lemma chosen_card_in_deck (g : gesture) (p : participant) : In (chosen_card g p) all_cards.
Proof.
  unfold chosen_card. by destruct (selectbox_cards (g_card g (p_id p))) as (c & -> & Hc).
Qed.

(** The batch of the tab has one entry for each name among the
    participants, and the card of an entry is the card chosen for the last
    participant of that name. *)
Lemma tab_batch_spec (g : gesture) (ps : list participant) :
  NoDup (map fst (tab_batch g ps)) /\
  (forall name, In name (map fst (tab_batch g ps)) <-> In name (map p_name ps)) /\
  (forall name card,
     In (name, card) (tab_batch g ps) <->
     exists p, last (List.filter (fun p => String.eqb (p_name p) name) ps) = Some p /\
               card = chosen_card g p).
Proof.
  induction ps as [|p ps (Hnd & Hkeys & Hcards)] using rev_ind.
  - split; [constructor|]. split; [done|]. intros name card. split; [done|].
    by intros (p & Hp & _).
  - rewrite tab_batch_snoc. split; [by apply dict_set_NoDup|]. split.
    + intros name. rewrite dict_set_keys, map_app, in_app_iff. simpl.
      destruct (existsb _ _) eqn:E.
      * rewrite Hkeys. split; [auto|]. intros [Hin|[<-|[]]]; [done|].
        apply existsb_exists in E as (k & Hk & ->%String.eqb_eq). by apply Hkeys.
      * by rewrite in_app_iff, Hkeys.
    + intros name card. rewrite dict_set_In by done. rewrite List.filter_app. simpl.
      destruct (String.eqb_spec (p_name p) name) as [Hname|Hname].
      * rewrite last_snoc. split.
        -- intros [[_ ->]|[Hne _]]; [by exists p | congruence].
        -- intros (p' & [= <-] & ->). auto.
      * rewrite app_nil_r, <- Hcards. split.
        -- intros [[-> _]|[_ Hin]]; done.
        -- intros Hin. right. split; [congruence | done].
Qed.

Lemma tab_batch_unique_names (g : gesture) (ps : list participant) :
  NoDup (map p_name ps) ->
  tab_batch g ps = map (fun p => (p_name p, chosen_card g p)) ps.
Proof.
  induction ps as [|p ps IH] using rev_ind; intros Hnd; [done|].
  rewrite tab_batch_snoc, map_app. simpl.
  rewrite map_app in Hnd. apply NoDup_app in Hnd as (Hps & Hfresh & _).
  rewrite IH by done.
  assert (forall q, In q ps -> p_name q <> p_name p) as Hne.
  { intros q Hq Heq. apply (Hfresh (p_name q)).
    - by apply list_elem_of_In, in_map.
    - rewrite Heq. simpl. by left. }
  clear -Hne. induction ps as [|q ps IH]; simpl; [done|].
  destruct (String.eqb_spec (p_name q) (p_name p)) as [Heq|_].
  - destruct (Hne q); [by left | done].
  - f_equal. apply IH. intros q' Hq'. apply Hne. by right.
Qed.

Lemma column_nonempty {R A} (name : string) (get : R -> A) (df : list R) (w : world) :
  df <> [] -> column name get df w = (Ok (map get df), w).
Proof. by destruct df. Qed.

Section EstimationTabRuns.
Context `{PyRuntime}.

Lemma participants_loop (g : gesture) (ps : list participant) (acc : list (string * raw))
    (w : world) :
  for_each ps acc
    (fun estimates participant =>
       st (st_write [Lit "**"; Str (p_name participant); Lit "** (";
                     Str (p_role participant); Lit ")"]);;
       estimate ← of_option IndexError (selectbox all_cards (g_card g (p_id participant)));
       mret (dict_set (p_name participant) estimate estimates)) w =
  (Ok (fold_left (fun d p => dict_set (p_name p) (chosen_card g p) d) ps acc),
   draw (map participant_line ps) w).
Proof.
  revert acc w. induction ps as [|p ps IH]; intros acc w; simpl.
  - by rewrite draw_nil.
  - rewrite bind_run. step. unfold chosen_card.
    destruct (selectbox_cards (g_card g (p_id p))) as (c & -> & _).
    step. rewrite ret_run. cbv beta iota. rewrite IH, draw_draw. reflexivity.
Qed.

(** With a store that answers, a session that has participants and the
    button pressed, the tab runs the round for the chosen story on the
    batch of the boxes. *)
Lemma tab_runs_round (g : gesture) (w : world) (story_row : story) :
  faults w = [] ->
  session_participants w <> [] ->
  chosen_story g w = Some story_row ->
  g_button g = true ->
  exists ws,
    render_estimation_tab g w =
      (analyze_estimates story_row (tab_batch g (session_participants w));; mret tt)
        (draw ws w).
Proof.
  intros Hf Hps Hchosen Hbutton. unfold render_estimation_tab.
  step. rewrite bind_run, session_state_run. cbv beta iota.
  rewrite bind_run, get_stories_df_healthy by done. cbv beta iota.
  rewrite bind_run, session_state_run. cbv beta iota.
  rewrite bind_run, get_participants_df_healthy by done. cbv beta iota.
  change (session_stories (draw _ w)) with (session_stories w).
  change (session_participants (draw _ w)) with (session_participants w).
  unfold chosen_story in Hchosen.
  destruct (selectbox (map s_story_id (pending_stories w)) (g_story g)) as [code|] eqn:Hsel;
    [|done].
  destruct (String.eqb code "") eqn:Hcode; [done|].
  destruct (session_stories w) as [|s0 ss] eqn:Hstories; [done|].
  destruct (session_participants w) as [|p0 ps] eqn:Hparts; [done|].
  rewrite bind_run, column_run. cbv beta iota zeta.
  rewrite map_map, rows_where_filter. rewrite <- Hstories. fold (pending_stories w).
  destruct (pending_stories w) as [|q0 qs] eqn:Hpending.
  { unfold selectbox in Hsel. simpl in Hsel. done. }
  step. rewrite bind_run, column_run. cbv beta iota. rewrite Hsel, Hcode.
  change (negb false) with true. cbv iota.
  rewrite bind_run, column_nonempty by (by rewrite Hstories). cbv beta iota.
  rewrite map_map, rows_where_filter. rewrite <- Hstories in Hchosen.
  rewrite Hchosen. do 4 step.
  rewrite bind_run, (for_each_st _ _ card_box) by done. cbv beta iota.
  step. rewrite bind_run, participants_loop. cbv beta iota.
  rewrite Hbutton, !draw_draw. fold (tab_batch g (p0 :: ps)). eauto.
Qed.

End EstimationTabRuns.

(** ** Rounds run from the estimation tab *)

Section EstimationTabRounds.
Context `{PyRuntime}.

Lemma matched_rows_all_known (ps : list participant) (sid id : Z)
    (batch : list (string * raw)) (t : Z) :
  (forall name, In name (map fst batch) -> In name (map p_name ps)) ->
  length (matched_rows ps sid id batch t) = length batch.
Proof.
  revert t. induction batch as [|[name card] batch IH]; intros t Hknown; simpl; [done|].
  destruct (find_participant ps name) as [p|] eqn:Hfind.
  - simpl. f_equal. apply IH. intros n Hn. apply Hknown. by right.
  - apply find_participant_None in Hfind. exfalso.
    assert (known_name ps name = true); [|congruence].
    apply existsb_exists. exists name. split; [|apply String.eqb_refl].
    apply Hknown. by left.
Qed.

Lemma deck_batch_length (estimates : list (string * raw)) :
  Forall (fun entry => In (snd entry) all_cards) estimates ->
  (length (numeric_estimates estimates) + length (special_estimates estimates) =
     length estimates)%nat.
Proof.
  unfold numeric_estimates, special_estimates.
  induction 1 as [|[q d] rest Hd _ IH]; [done|].
  simpl. destruct (split_estimates rest) as [nums specs]. simpl in IH.
  destruct (deck_card_cases d Hd) as [(s & -> & Hs)|[(z & -> & Hs & _)|(x & -> & Hs)]];
    rewrite Hs; cbn [py_float fst snd length]; lia.
Qed.

(** X20: on the tab a consensus closes the story.  With a store that
    answers, a session that has participants and the button pressed, when
    the numeric cards of the boxes are at least two and all the same, the
    tab saves one estimate for each entry of its batch (no entry is passed
    over: every name of the batch is that of a participant), marks the
    chosen story estimated with that value, and says so. *)
Theorem consensus_on_the_tab (g : gesture) (w : world) (story_row : story) (v : Q) :
  let batch := tab_batch g (session_participants w) in
  let values := map snd (numeric_estimates batch) in
  let w' := snd (render_estimation_tab g w) in
  faults w = [] ->
  session_participants w <> [] ->
  chosen_story g w = Some story_row ->
  g_button g = true ->
  (2 <= length values)%nat ->
  length (py_set values) = 1%nat ->
  head values = Some v ->
  fst (render_estimation_tab g w) = Ok tt /\
  (exists t, tbl_user_stories w' = marked (s_id story_row) v t (tbl_user_stories w)) /\
  length (tbl_estimates w') = (length (tbl_estimates w) + length batch)%nat /\
  In (st_success [Lit "✅ Estimación guardada!"]) (screen w').
Proof.
  intros batch values w' Hf Hps Hchosen Hbutton Hlen Hset Hhead.
  destruct (tab_runs_round g w story_row Hf Hps Hchosen Hbutton) as [ws Hrun].
  subst w'. rewrite Hrun. fold batch. clear Hrun.
  subst values. rewrite length_map in Hlen.
  destruct (py_min_nonempty _ (values_nonempty _ Hlen)) as [lo Hlo].
  destruct (py_max_nonempty _ (values_nonempty _ Hlen)) as [hi Hhi].
  assert (length (matched_rows (session_participants w) (current_session_id w)
                               (s_id story_row) batch (now w)) = length batch) as Hrows.
  { apply matched_rows_all_known. intros name Hname.
    by apply (tab_batch_spec g (session_participants w)). }
  assert (batch <> []) as Hbatch.
  { intros E. rewrite E in Hlen. simpl in Hlen. lia. }
  rewrite bind_run, (analyze_consensus_healthy story_row batch (draw ws w) v lo hi); try done.
  2:{ change (session_participants (draw ws w)) with (session_participants w).
      change (current_session_id (draw ws w)) with (current_session_id w).
      change (now (draw ws w)) with (now w).
      intros E. rewrite E in Hrows. destruct batch; [done | discriminate]. }
  cbv beta iota. rewrite ret_run.
  change (session_participants (draw ws w)) with (session_participants w).
  change (current_session_id (draw ws w)) with (current_session_id w).
  change (now (draw ws w)) with (now w).
  split; [done|]. split; [by eexists|]. split.
  - simpl. by rewrite length_app, Hrows.
  - simpl. repeat first [left; reflexivity | right | rewrite in_app_iff | progress simpl].
Qed.

(** X21: the batch of a round run from the tab.  With a store that answers
    and the button pressed, the tab runs [analyze_estimates] for the chosen
    story on a batch that has exactly one entry for each participant name
    of the session, whose card is the card chosen in the box of the last
    participant of that name; every card is one of the deck, so that no
    entry is dropped by the round; and when the names are distinct the
    batch lists the participants in order, each with the card of its box. *)
Theorem batch_of_the_tab (g : gesture) (w : world) (story_row : story) :
  let ps := session_participants w in
  let batch := tab_batch g ps in
  faults w = [] ->
  ps <> [] ->
  chosen_story g w = Some story_row ->
  g_button g = true ->
  (exists ws,
     render_estimation_tab g w =
       (analyze_estimates story_row batch;; mret tt) (draw ws w)) /\
  NoDup (map fst batch) /\
  (forall name, In name (map fst batch) <-> In name (map p_name ps)) /\
  (forall name card,
     In (name, card) batch <->
     exists p, last (List.filter (fun p => String.eqb (p_name p) name) ps) = Some p /\
               card = chosen_card g p) /\
  (length (numeric_estimates batch) + length (special_estimates batch) =
     length batch)%nat /\
  (NoDup (map p_name ps) -> batch = map (fun p => (p_name p, chosen_card g p)) ps).
Proof.
  intros ps batch Hf Hps Hchosen Hbutton.
  destruct (tab_batch_spec g ps) as (Hnd & Hkeys & Hcards).
  split; [by apply tab_runs_round|]. split; [done|]. split; [done|]. split; [done|].
  split; [|apply tab_batch_unique_names].
  apply deck_batch_length, List.Forall_forall. intros [name card] Hin.
  apply Hcards in Hin as (p & _ & ->). apply chosen_card_in_deck.
Qed.

End EstimationTabRounds.

Lemma consensus_on_the_tab_witness :
  faults demo_world = [] /\
  session_participants demo_world <> [] /\
  chosen_story (Gesture 0 (fun _ => 5%nat) true) demo_world = Some demo_story /\
  fst (render_estimation_tab (Gesture 0 (fun _ => 5%nat) true) demo_world) = Ok tt /\
  (exists t,
     tbl_user_stories (snd (render_estimation_tab (Gesture 0 (fun _ => 5%nat) true) demo_world)) =
       marked 7 5 t [demo_story]) /\
  length (tbl_estimates
            (snd (render_estimation_tab (Gesture 0 (fun _ => 5%nat) true) demo_world))) = 3%nat.
Proof.
  split; [reflexivity|]. split; [discriminate|]. split; [reflexivity|].
  destruct (consensus_on_the_tab (Gesture 0 (fun _ => 5%nat) true) demo_world demo_story 5)
    as (Hr & Hs & He & _).
  - reflexivity.
  - discriminate.
  - reflexivity.
  - reflexivity.
  - vm_compute. lia.
  - vm_compute. reflexivity.
  - vm_compute. reflexivity.
  - split; [exact Hr|]. split; [exact Hs | exact He].
Defined.

Lemma batch_of_the_tab_witness :
  faults demo_world = [] /\
  session_participants demo_world <> [] /\
  chosen_story (Gesture 0 (fun id => if Z.eqb id 11 then 12%nat else 5%nat) true) demo_world =
    Some demo_story /\
  tab_batch (Gesture 0 (fun id => if Z.eqb id 11 then 12%nat else 5%nat) true)
            (session_participants demo_world) =
    [("A", RInt 5); ("B", RStr "?"); ("C", RInt 5)] /\
  (length (numeric_estimates [("A", RInt 5); ("B", RStr "?"); ("C", RInt 5)]) +
   length (special_estimates [("A", RInt 5); ("B", RStr "?"); ("C", RInt 5)]) = 3)%nat.
Proof.
  split; [reflexivity|]. split; [discriminate|]. split; [reflexivity|].
  destruct (batch_of_the_tab (Gesture 0 (fun id => if Z.eqb id 11 then 12%nat else 5%nat) true)
              demo_world demo_story eq_refl) as (_ & _ & _ & _ & Hlen & Huniq);
    [discriminate | reflexivity | reflexivity |].
  split; [|exact Hlen].
  apply Huniq. apply NoDup_ListNoDup. repeat constructor; simpl; intuition discriminate.
Defined.

(** ** The analytics read and do not write *)

Lemma get_estimates_df_keeps (session_id : Z) (w0 w : world) :
  same_tables w0 w ->
  wp (get_estimates_df session_id)
     (fun r w1 => exists df, r = Ok df /\ same_tables w0 w1) w.
Proof.
  intros Hw. unfold get_estimates_df. apply wp_try_except, wp_bind, wp_execute.
  - intros fs. apply wp_bind, wp_st, wp_ret. by exists [].
  - intros fs. simpl.
    destruct (List.filter _ (tbl_estimates w)) as [|e es] eqn:E.
    + apply wp_ret. by exists [].
    + eapply wp_mono; [|apply (estimates_loop _ _ w0); done].
      intros r w1 [Hw1 [->|[e' ->]]].
      * by eexists.
      * apply wp_bind, wp_st, wp_ret. by exists [].
Qed.

Section ReadOnly.
Context `{PyRuntime}.

Lemma reports_stories_keeps (stories_df : list story) (w0 w : world) :
  same_tables w0 w ->
  wp (reports_stories stories_df) (fun r w1 => r = Ok tt /\ same_tables w0 w1) w.
Proof.
  intros Hw. unfold reports_stories. destruct stories_df as [|s l]; [by apply wp_ret|].
  by apply wp_bind, wp_ret, wp_st.
Qed.

Lemma reports_estimates_keeps (participants_df : list participant)
    (estimates_df : list estimate_info) (w0 w : world) :
  same_tables w0 w ->
  wp (reports_estimates participants_df estimates_df)
     (fun r w1 => r = Ok tt /\ same_tables w0 w1) w.
Proof.
  intros Hw. unfold reports_estimates. destruct estimates_df as [|e l]; [by apply wp_ret|].
  apply wp_bind, wp_ret, wp_bind.
  destruct participants_df as [|p ps]; [by apply wp_ret, wp_st|].
  by apply wp_bind, wp_ret, wp_ret, wp_st.
Qed.

(** X22: the analytics tab and the summary of the reports tab read and do
    not write: whatever the store does, they end normally and leave the
    session, the participants, the stories and the estimates as they
    were. *)
Theorem analytics_are_read_only (w : world) :
  (fst (render_analytics_tab w) = Ok tt /\ same_tables w (snd (render_analytics_tab w))) /\
  (fst (render_reports_tab w) = Ok tt /\ same_tables w (snd (render_reports_tab w))).
Proof.
  split.
  - change (wp render_analytics_tab (fun r w1 => r = Ok tt /\ same_tables w w1) w).
    unfold render_analytics_tab. apply wp_bind, wp_st, wp_bind, wp_session_state, wp_bind.
    eapply wp_mono; [|apply (get_estimates_df_keeps _ w); done].
    intros r w1 (df & -> & Hw1). destruct df as [|e df]; [by apply wp_st|].
    apply wp_bind, wp_ret, wp_bind, wp_st, wp_bind, wp_st, wp_bind, wp_ret, wp_bind, wp_st,
      wp_bind, wp_ret, wp_bind, wp_st, wp_bind.
    destruct (numeric_subset _) as [|x xs]; [apply wp_ret | apply wp_st];
      (apply wp_bind;
       destruct (participant_stats _) as [|y ys]; [apply wp_ret | apply wp_st];
       by apply wp_bind, wp_st, wp_st).
  - change (wp render_reports_tab (fun r w1 => r = Ok tt /\ same_tables w w1) w).
    unfold render_reports_tab. apply wp_bind, wp_st, wp_bind, wp_session_state, wp_bind.
    eapply wp_mono; [|apply (get_stories_df_keeps _ w); done].
    intros r w1 (stories_df & -> & Hw1 & _). apply wp_bind.
    eapply wp_mono; [|apply (get_participants_df_keeps _ w); done].
    intros r w2 (participants_df & -> & Hw2 & _). apply wp_bind.
    eapply wp_mono; [|apply (get_estimates_df_keeps _ w); done].
    intros r w3 (estimates_df & -> & Hw3). apply wp_bind, wp_st, wp_bind.
    eapply wp_mono; [|apply (reports_stories_keeps _ w); done].
    intros r w4 [-> Hw4]. by apply reports_estimates_keeps.
Qed.

End ReadOnly.

(** ** Story points *)






Section StoryPoints.
Context `{PyRuntime}.


End StoryPoints.

